(** * Submission event handler (src/lambda.py): model and properties

    The handler is a straight-line Python function that talks to four
    external services (HTTP, object storage, SMTP, DynamoDB).  It is embedded
    here as a function in a small writer-and-exception monad:

    - every call to an external service is logged, in order, in a trace,
      together with whether it returned or raised;
    - what a service (or a library function such as [json.loads]) answers is
      read from a [World], so that every theorem quantifies over all possible
      behaviours of the environment;
    - Python exceptions are values, and [try]/[except] is a combinator that
      tests the class of the exception as [except C] does.

    Logging and [print] calls have no influence on control flow and are left
    out.  Python [str] values are modelled by [string], one character per
    code point below 256. *)

From Stdlib Require Import Ascii String ZArith.
From stdpp Require Import base strings gmap list pretty.

Open Scope string_scope.

#[local] Set Warnings "-register-all".

(** ** Python values *)

(** The values [json.loads] can produce, which are also the values found in
    the event the runtime passes to the handler.  A float is carried by its
    [repr], the only thing the handler could do with it is print it. *)
Inductive pyval : Type :=
  | PNone
  | PBool (b : bool)
  | PInt (n : Z)
  | PFloat (repr : string)
  | PStr (s : string)
  | PList (l : list pyval)
  | PDict (d : list (string * pyval)).

Definition bytes : Type := list Byte.byte.

(** ** Exceptions *)

(** The exception classes the handler names or provokes.  [LibraryError]
    stands for any class of a third-party library that derives directly from
    [Exception]; [KeyboardInterrupt] for one that does not derive from it. *)
Inductive pyclass : Type :=
  | BaseException
  | KeyboardInterrupt
  | Exception
  | LookupError
  | KeyError
  | IndexError
  | TypeError
  | ValueError
  | JSONDecodeError
  | OSError
  | SMTPException
  | LibraryError (name : string).

Global Instance pyclass_eq_dec : EqDecision pyclass.
Proof. solve_decision. Defined.

(** The class itself followed by its ancestors. *)
Definition mro (c : pyclass) : list pyclass :=
  match c with
  | BaseException => [BaseException]
  | KeyboardInterrupt => [KeyboardInterrupt; BaseException]
  | Exception => [Exception; BaseException]
  | LookupError => [LookupError; Exception; BaseException]
  | KeyError => [KeyError; LookupError; Exception; BaseException]
  | IndexError => [IndexError; LookupError; Exception; BaseException]
  | TypeError => [TypeError; Exception; BaseException]
  | ValueError => [ValueError; Exception; BaseException]
  | JSONDecodeError => [JSONDecodeError; ValueError; Exception; BaseException]
  | OSError => [OSError; Exception; BaseException]
  | SMTPException => [SMTPException; OSError; Exception; BaseException]
  | LibraryError n => [LibraryError n; Exception; BaseException]
  end.

Definition issubclass (c d : pyclass) : bool := bool_decide (d ∈ mro c).

Record exn : Type := Exn { exn_class : pyclass; exn_arg : string }.

Definition isinstance (e : exn) (c : pyclass) : bool := issubclass (exn_class e) c.

(** What evaluating a Python expression or statement ends in. *)
Inductive outcome (A : Type) : Type :=
  | Ok (a : A)
  | Raised (e : exn).
Arguments Ok {A} a.
Arguments Raised {A} e.

Definition returned {A} (r : outcome A) : bool :=
  match r with Ok _ => true | Raised _ => false end.

(** ** Built-in operations on values *)

Definition dquote : ascii := ascii_of_nat 34.
Definition squote : ascii := ascii_of_nat 39.
Definition backslash : ascii := ascii_of_nat 92.
Definition nl : string := String (ascii_of_nat 10) "".

Definition hex_digit (n : N) : ascii :=
  match String.get (N.to_nat n) "0123456789abcdef" with
  | Some c => c
  | None => "0"%char
  end.

Definition has_char (c : ascii) (s : string) : bool :=
  existsb (Ascii.eqb c) (list_ascii_of_string s).

(** One character of [repr(s)], [q] being the quote chosen for [s]. *)
Definition repr_char (q c : ascii) : string :=
  let n := N_of_ascii c in
  if Ascii.eqb c q || Ascii.eqb c backslash then String backslash (String c "")
  else if (n =? 9)%N then String backslash "t"
  else if (n =? 10)%N then String backslash "n"
  else if (n =? 13)%N then String backslash "r"
  else if (n <? 32)%N || ((127 <=? n)%N && (n <=? 160)%N) || (n =? 173)%N
    then String backslash
           (String "x" (String (hex_digit (n / 16)) (String (hex_digit (n mod 16)) "")))
  else String c "".

(** [repr] of a [str]: single quotes, unless the text has a single quote and
    no double quote. *)
Definition repr_str (s : string) : string :=
  let q := if has_char squote s && negb (has_char dquote s) then dquote else squote in
  String q (String.concat "" (map (repr_char q) (list_ascii_of_string s))) ++ String q "".

Fixpoint py_repr (v : pyval) : string :=
  match v with
  | PNone => "None"
  | PBool true => "True"
  | PBool false => "False"
  | PInt n => pretty n
  | PFloat r => r
  | PStr s => repr_str s
  | PList l => "[" ++ String.concat ", " (map py_repr l) ++ "]"
  | PDict d =>
      "{" ++ String.concat ", "
               (map (fun kv : string * pyval => repr_str (fst kv) ++ ": " ++ py_repr (snd kv)) d)
          ++ "}"
  end.

(** [str(v)], which is also what an empty format field [{}] and an f-string
    field print. *)
Definition py_str (v : pyval) : string :=
  match v with
  | PStr s => s
  | _ => py_repr v
  end.

(** [v == s] for a string literal [s]. *)
Definition eq_str (v : pyval) (s : string) : bool :=
  match v with
  | PStr t => bool_decide (t = s)
  | _ => false
  end.

Fixpoint assoc (k : string) (d : list (string * pyval)) : option pyval :=
  match d with
  | [] => None
  | (k', v) :: d' => if bool_decide (k' = k) then Some v else assoc k d'
  end.

(** [type(v).__name__]. *)
Definition type_name (v : pyval) : string :=
  match v with
  | PNone => "NoneType"
  | PBool _ => "bool"
  | PInt _ => "int"
  | PFloat _ => "float"
  | PStr _ => "str"
  | PList _ => "list"
  | PDict _ => "dict"
  end.

Definition not_subscriptable (v : pyval) : exn :=
  Exn TypeError (String squote (type_name v) ++ String squote " object is not subscriptable").

(** [v[k]] for a string key. *)
Definition getitem (v : pyval) (k : string) : outcome pyval :=
  match v with
  | PDict d =>
      match assoc k d with
      | Some x => Ok x
      | None => Raised (Exn KeyError (repr_str k))
      end
  | PList _ => Raised (Exn TypeError "list indices must be integers or slices, not str")
  | PStr _ => Raised (Exn TypeError "string indices must be integers, not 'str'")
  | _ => Raised (not_subscriptable v)
  end.

(** [v[i]] for an integer index (negative ones count from the end). *)
Definition getindex (v : pyval) (i : Z) : outcome pyval :=
  match v with
  | PList l =>
      let j := (if i <? 0 then Z.of_nat (length l) + i else i)%Z in
      if (j <? 0)%Z then Raised (Exn IndexError "list index out of range")
      else match l !! Z.to_nat j with
           | Some x => Ok x
           | None => Raised (Exn IndexError "list index out of range")
           end
  | PStr s =>
      let j := (if i <? 0 then Z.of_nat (String.length s) + i else i)%Z in
      if (j <? 0)%Z then Raised (Exn IndexError "string index out of range")
      else match String.get (Z.to_nat j) s with
           | Some c => Ok (PStr (String c ""))
           | None => Raised (Exn IndexError "string index out of range")
           end
  | PDict _ => Raised (Exn KeyError (pretty i))
  | _ => Raised (not_subscriptable v)
  end.


(** ** Effects: calls to the external services *)

(** An HTTP response, as far as the handler looks at it. *)
Record Response : Type := { status_code : Z; content : bytes }.

(** A [MIMEText] message: the payload and the three headers that are set. *)
Record MIMEText : Type :=
  { payload : string; Subject : pyval; From : pyval; To : pyval }.

(** The requests that leave the process. *)
Inductive call : Type :=
  | HttpGet (url : pyval)
  | BlobUpload (bucket path : string) (data : bytes)
  | SmtpConnect (host : string) (port : Z)
  | SmtpLogin (user key : pyval)
  | SmtpSendmail (from_addr to_addr : pyval) (text : string)
  | SmtpQuit
  | PutItem (table : pyval) (item : list (string * pyval)).

(** A call, and whether it returned ([true]) or raised ([false]). *)
Definition entry : Type := call * bool.
Definition trace : Type := list entry.

(** A computation: the calls it made, in order, and how it ended. *)
Definition M (A : Type) : Type := trace * outcome A.

Definition ret {A} (a : A) : M A := ([], Ok a).
Definition raise {A} (e : exn) : M A := ([], Raised e).

Definition bind {A B} (m : M A) (k : A → M B) : M B :=
  match m with
  | (t, Ok a) => let '(t', r) := k a in ((t ++ t')%list, r)
  | (t, Raised e) => (t, Raised e)
  end.

(** A pure step that may raise. *)
Definition lift {A} (r : outcome A) : M A := ([], r).

(** A call to a service, answered by [r]. *)
Definition perform {A} (c : call) (r : outcome A) : M A := ([(c, returned r)], r).

(** [try: m  except cls as e: h e]. *)
Definition try_except {A} (m : M A) (cls : pyclass) (h : exn → M A) : M A :=
  match m with
  | (t, Raised e) =>
      if isinstance e cls then let '(t', r) := h e in ((t ++ t')%list, r)
      else (t, Raised e)
  | _ => m
  end.

Global Instance M_ret : MRet M := @ret.
Global Instance M_bind : MBind M := λ A B k m, bind m k.

(** Sequencing of pure steps. *)
Global Instance outcome_ret : MRet outcome := @Ok.
Global Instance outcome_bind : MBind outcome := λ A B k r,
  match r with
  | Ok a => k a
  | Raised e => Raised e
  end.

(** ** The environment of an invocation *)

(** A reading of the clock down to the whole second: the fields that the
    format of line 73 prints.  What the clock shows below the second is not
    part of it. *)
Record datetime : Type :=
  { year : N; month : N; day : N; hour : N; minute : N; second : N }.

(** Everything the handler obtains from outside: the process environment,
    the clock, the library functions whose result depends on more than the
    model describes, and the answers of the services.  The two
    [requests.get] calls of the handler are told apart by their position
    ([0] for line 39, [1] for line 68); every other operation is reached at
    most once in an invocation. *)
Record World : Type :=
  { environ : gmap string string;
    now : datetime;
    lib_json_loads : string → outcome pyval;
    lib_b64decode_utf8 : string → outcome string;
    requests_get : nat → pyval → outcome Response;
    from_service_account_info : pyval → outcome unit;
    storage_Client : outcome unit;
    client_bucket : string → outcome unit;
    upload_from_string : string → string → bytes → outcome unit;
    smtplib_SMTP : string → Z → outcome unit;
    smtp_login : pyval → pyval → outcome unit;
    as_string : MIMEText → outcome string;
    smtp_sendmail : pyval → pyval → string → outcome unit;
    smtp_quit : outcome unit;
    boto3_resource : string → outcome unit;
    dynamodb_Table : pyval → outcome unit;
    put_item : pyval → list (string * pyval) → outcome unit }.

(** [os.environ[k]] and [os.environ.get(k)]. *)
Definition environ_item (w : World) (k : string) : outcome string :=
  match environ w !! k with
  | Some v => Ok v
  | None => Raised (Exn KeyError (repr_str k))
  end.

Definition environ_get (w : World) (k : string) : pyval :=
  match environ w !! k with
  | Some v => PStr v
  | None => PNone
  end.

(** [json.loads(v)]: only text is decoded. *)
Definition json_loads (w : World) (v : pyval) : outcome pyval :=
  match v with
  | PStr s => lib_json_loads w s
  | _ => Raised (Exn TypeError
                   ("the JSON object must be str, bytes or bytearray, not " ++ type_name v))
  end.

Definition pad (width : nat) (n : N) : string :=
  let s := pretty n in
  String.concat "" (replicate (width - String.length s) "0") ++ s.

(** [strftime("%Y%m%d%H%M%S")]. *)
Definition strftime (d : datetime) : string :=
  pad 4 (year d) ++ pad 2 (month d) ++ pad 2 (day d)
  ++ pad 2 (hour d) ++ pad 2 (minute d) ++ pad 2 (second d).

(** ** The program *)

(** The fields read from the message (lines 27 to 33). *)
Record Message : Type :=
  { status : pyval;
    submission_url : pyval;
    user_email : pyval;
    assignment_id : pyval;
    first_name : pyval;
    last_name : pyval;
    attempt : pyval }.

(** The locals bound between the message and the [try] (lines 41 to 64). *)
Record Locals : Type :=
  { bucket : string;
    source_email : pyval;
    mailgun_user_name : pyval;
    mailgun_key : pyval }.

Definition send_email_params : list string :=
  ["mailgun_user_name"; "mailgun_key"; "user_email"; "first_name"; "last_name";
   "submission_url"; "assignment_id"; "attempt"; "source_email"; "subject"; "body"].

(** The names of missing parameters, as the interpreter lists them. *)
Definition name_list (l : list string) : string :=
  let q := λ n : string, String squote n ++ String squote "" in
  match reverse l with
  | [] => ""
  | [a] => q a
  | [b; a] => q a ++ " and " ++ q b
  | z :: rest => String.concat ", " (map q (reverse rest)) ++ ", and " ++ q z
  end.

(** What calling [send_email] with a wrong number of positional arguments
    raises, before the body is entered. *)
Definition arity_error (given : nat) : exn :=
  let expected := length send_email_params in
  if (given <? expected)%nat then
    let missing := drop given send_email_params in
    Exn TypeError
      ("send_email() missing " ++ pretty (length missing) ++ " required positional argument"
       ++ (if (length missing =? 1)%nat then "" else "s") ++ ": " ++ name_list missing)
  else
    Exn TypeError
      ("send_email() takes " ++ pretty expected ++ " positional arguments but "
       ++ pretty given ++ " were given").

(** The template of lines 137 to 148, filled in. *)
Definition message_body (first_name last_name assignment_id body attempt : pyval) : string :=
  "Hello " ++ py_str first_name ++ " " ++ py_str last_name ++ ","
  ++ nl ++ nl
  ++ "Your submission with assignment ID " ++ py_str assignment_id
  ++ " has been processed"
  ++ nl
  ++ py_str body
  ++ nl
  ++ "Attempt  - " ++ py_str attempt
  ++ nl ++ nl
  ++ "Regards,"
  ++ nl
  ++ "Team Assessment Inc.".

Section Handler.

Context (w : World).

(** [send_email], lines 131 to 166. *)
Definition send_email
    (mailgun_user_name mailgun_key user_email first_name last_name submission_url
     assignment_id attempt source_email subject body : pyval) : M unit :=
  let message_body := message_body first_name last_name assignment_id body attempt in
  let msg :=
    {| payload := message_body; Subject := subject;
       From := source_email; To := user_email |} in
  perform (SmtpConnect "smtp.mailgun.org" 587) (smtplib_SMTP w "smtp.mailgun.org" 587);;
  try_except
    (perform (SmtpLogin mailgun_user_name mailgun_key)
             (smtp_login w mailgun_user_name mailgun_key);;
     text ← lift (as_string w msg);
     perform (SmtpSendmail (From msg) (To msg) text)
             (smtp_sendmail w (From msg) (To msg) text))
    SMTPException
    (λ _, ret ());;
  perform SmtpQuit (smtp_quit w).

(** A call of [send_email] with positional arguments: they are bound to the eleven
    parameters, or the call raises. *)
Definition call_send_email (args : list pyval) : M unit :=
  match args with
  | [a1; a2; a3; a4; a5; a6; a7; a8; a9; a10; a11] =>
      send_email a1 a2 a3 a4 a5 a6 a7 a8 a9 a10 a11
  | _ => raise (arity_error (length args))
  end.

(** [update_dynamodb], lines 169 to 182. *)
Definition update_dynamodb
    (user_email assignment_id submission_url full_path timestamp : pyval) : M unit :=
  let table_name := environ_get w "DYNAMO_TABLE_NAME" in
  let partition_key :=
    py_str user_email ++ "#" ++ py_str assignment_id ++ "#" ++ py_str timestamp in
  lift (boto3_resource w "dynamodb");;
  lift (dynamodb_Table w table_name);;
  let item :=
    [("Id", PStr partition_key);
     ("AssignmentId", assignment_id);
     ("SubmissionUrl", submission_url);
     ("FilePath", full_path);
     ("Timestamp", timestamp)] in
  perform (PutItem table_name item) (put_item w table_name item).

(** Line 19: [event['Records'][0]['Sns']['Message']]. *)
Definition sns_message (event : pyval) : outcome pyval :=
  records ← getitem event "Records";
  record ← getindex records 0;
  sns ← getitem record "Sns";
  getitem sns "Message".

(** Lines 27 to 33: the seven fields, in the order they are read. *)
Definition read_fields (message : pyval) : outcome Message :=
  status ← getitem message "status";
  submission_url ← getitem message "submissionUrl";
  user_email ← getitem message "userEmail";
  assignment_id ← getitem message "assignmentId";
  first_name ← getitem message "first_name";
  last_name ← getitem message "last_name";
  attempt ← getitem message "attempt";
  Ok {| status := status; submission_url := submission_url; user_email := user_email;
        assignment_id := assignment_id; first_name := first_name;
        last_name := last_name; attempt := attempt |}.

(** Lines 19 to 33: the message is taken out of the event, decoded, and
    its fields are read. *)
Definition read_message (event : pyval) : outcome Message :=
  message_str ← sns_message event;
  message ← json_loads w message_str;
  read_fields message.

(** Lines 41 to 64: credentials, storage client, bucket, mail settings.
    The clause of lines 47 to 52 prints and raises the exception again; the
    second [os.environ['GCP_BUCKET_NAME']] of line 58 cannot fail after the
    first. *)
Definition open_storage : M Locals :=
  google_creds_base64 ← lift (environ_item w "GOOGLE_CREDENTIALS");
  google_creds_json ← lift (lib_b64decode_utf8 w google_creds_base64);
  google_creds ←
    try_except (lift (json_loads w (PStr google_creds_json)))
               JSONDecodeError
               (λ e, raise e);
  lift (from_service_account_info w google_creds);;
  lift (storage_Client w);;
  bucket_name ← lift (environ_item w "GCP_BUCKET_NAME");
  lift (client_bucket w bucket_name);;
  ret {| bucket := bucket_name;
         source_email := environ_get w "FROM_ADDRESS";
         mailgun_user_name := environ_get w "MAILGUN_USERNAME";
         mailgun_key := environ_get w "MAILGUN_SMTP_KEY" |}.

(** Lines 67 to 123: the body of the [try]. *)
Definition dispatch (m : Message) (l : Locals) : M unit :=
  let notify (subject body : string) : M unit :=
    call_send_email
      [mailgun_user_name l; mailgun_key l; user_email m; first_name m; last_name m;
       submission_url m; assignment_id m; attempt m; source_email l;
       PStr subject; PStr body] in
  if eq_str (status m) "SUCCESS" then
    response ← perform (HttpGet (submission_url m)) (requests_get w 1 (submission_url m));
    let file_content := content response in
    if negb (status_code response =? 200)%Z || bool_decide (file_content = []) then
      raise (Exn ValueError "Invalid URL or empty content")
    else
      let timestamp := strftime (now w) in
      let directory_path := py_str (user_email m) ++ "/" ++ py_str (assignment_id m) ++ "/" in
      let unique_file_name :=
        "submission_" ++ py_str (attempt m) ++ "_" ++ timestamp ++ ".zip" in
      let full_path := directory_path ++ unique_file_name in
      perform (BlobUpload (bucket l) full_path file_content)
              (upload_from_string w (bucket l) full_path file_content);;
      let success_body :=
        "We are happy to notify you that your assignment submission has been received and accepted."
        ++ nl ++ nl ++ "Submission Path  - " ++ full_path in
      notify "Submission Received Successfully" success_body;;
      update_dynamodb (user_email m) (assignment_id m) (submission_url m)
                      (PStr full_path) (PStr timestamp)
  else if eq_str (status m) "NO_CONTENT" then
    notify "Submission Failed - Empty File"
           "Your Submission could not be accepted as the file does not have any content"
  else if eq_str (status m) "INVALID_URL" then
    notify "Submission Failed - Invalid URL"
           "Your Submission could not be accepted as the URL submitted does not contain a valid zip file"
  else if eq_str (status m) "MAX_ATTEMPTS" then
    notify "Submission Failed - max attempts reached"
           "Your Submission could not be accepted as you have reached maximum number of attempts"
  else if eq_str (status m) "DEADLINE_PASSED" then
    notify "Submission Failed - Deadline Passed"
           "Your Submission could not be accepted as the has passed"
  else
    raise (Exn ValueError "Non-success status received").

(** Lines 125 to 128: the [except Exception] clause. *)
Definition on_error (m : Message) (l : Locals) (e : exn) : M unit :=
  call_send_email
    [mailgun_user_name l; mailgun_key l; user_email m; submission_url m;
     assignment_id m; source_email l; PStr "Submission Error - Canvas";
     PStr "There was an error with your submission. Please ensure the URL is correct and the content is not empty."].

(** [lambda_handler], lines 14 to 128.  The response of the fetch of line 39
    is bound to a variable that is assigned again at line 68 before it is
    read. *)
Definition lambda_handler (event : pyval) : M unit :=
  m ← lift (read_message event);
  perform (HttpGet (submission_url m)) (requests_get w 0 (submission_url m));;
  l ← open_storage;
  try_except (dispatch m l) Exception (on_error m l).

End Handler.

(** ** Reading a trace *)

Definition as_fetch (c : call) : option pyval :=
  match c with HttpGet u => Some u | _ => None end.
Definition as_upload (c : call) : option (string * string * bytes) :=
  match c with BlobUpload b p d => Some (b, p, d) | _ => None end.
Definition as_mail (c : call) : option (pyval * pyval * string) :=
  match c with SmtpSendmail f t x => Some (f, t, x) | _ => None end.
Definition as_put (c : call) : option (pyval * list (string * pyval)) :=
  match c with PutItem n i => Some (n, i) | _ => None end.

(** The calls of one kind that were made, and those that also returned. *)
Definition attempted {A} (sel : call → option A) (t : trace) : list A :=
  omap (λ e : entry, sel e.1) t.
Definition completed {A} (sel : call → option A) (t : trace) : list A :=
  omap (λ e : entry, if e.2 then sel e.1 else None) t.

(** Two calls of the same operation. *)
Definition same_kind (c d : call) : bool :=
  match c, d with
  | HttpGet _, HttpGet _
  | BlobUpload _ _ _, BlobUpload _ _ _
  | SmtpConnect _ _, SmtpConnect _ _
  | SmtpLogin _ _, SmtpLogin _ _
  | SmtpSendmail _ _ _, SmtpSendmail _ _ _
  | SmtpQuit, SmtpQuit
  | PutItem _ _, PutItem _ _ => true
  | _, _ => false
  end.

(** How often the operation of [c] is called in a trace. *)
Definition occurrences (c : call) (t : trace) : nat :=
  length (List.filter (λ e : entry, same_kind c e.1) t).

(** ** Vocabulary of the specification *)

Definition required_fields : list string :=
  ["status"; "submissionUrl"; "userEmail"; "assignmentId"; "first_name"; "last_name";
   "attempt"].

Definition is_object (v : pyval) : bool :=
  match v with PDict _ => true | _ => false end.

(** The message is an object with a member [k]. *)
Definition has_field (v : pyval) (k : string) : bool :=
  match v with
  | PDict d => bool_decide (is_Some (assoc k d))
  | _ => false
  end.

Definition notify_only : list string :=
  ["NO_CONTENT"; "INVALID_URL"; "MAX_ATTEMPTS"; "DEADLINE_PASSED"].

Definition recognized : list string := "SUCCESS" :: notify_only.

(** The status of a message is none of the five. *)
Definition unrecognized (v : pyval) : Prop := ∀ s, s ∈ recognized → v ≠ PStr s.

(** Subject and body of the failure notice of a notify-only status. *)
Definition failure_notice (s : string) : string * string :=
  if bool_decide (s = "NO_CONTENT") then
    ("Submission Failed - Empty File",
     "Your Submission could not be accepted as the file does not have any content")
  else if bool_decide (s = "INVALID_URL") then
    ("Submission Failed - Invalid URL",
     "Your Submission could not be accepted as the URL submitted does not contain a valid zip file")
  else if bool_decide (s = "MAX_ATTEMPTS") then
    ("Submission Failed - max attempts reached",
     "Your Submission could not be accepted as you have reached maximum number of attempts")
  else
    ("Submission Failed - Deadline Passed",
     "Your Submission could not be accepted as the has passed").

(** The message [send_email] composes for a submission. *)
Definition notice (m : Message) (l : Locals) (subject body : string) : MIMEText :=
  {| payload := message_body (first_name m) (last_name m) (assignment_id m) (PStr body)
                             (attempt m);
     Subject := PStr subject;
     From := source_email l;
     To := user_email m |}.

(** The path under which a submission is stored. *)
Definition derived_path (m : Message) (timestamp : string) : string :=
  py_str (user_email m) ++ "/" ++ py_str (assignment_id m) ++ "/submission_"
  ++ py_str (attempt m) ++ "_" ++ timestamp ++ ".zip".

(** The SMTP session of one notice whose every step is accepted. *)
Definition smtp_session (l : Locals) (msg : MIMEText) (text : string) : trace :=
  [(SmtpConnect "smtp.mailgun.org" 587, true);
   (SmtpLogin (mailgun_user_name l) (mailgun_key l), true);
   (SmtpSendmail (From msg) (To msg) text, true);
   (SmtpQuit, true)].

(** The invocation reaches the [try]: the message is read, the fetch of
    line 39 returns, and the storage client is set up. *)
Definition reaches_dispatch (w : World) (event : pyval) (m : Message) (l : Locals) : Prop :=
  read_message w event = Ok m
  ∧ returned (requests_get w 0 (submission_url m)) = true
  ∧ open_storage w = ([], Ok l).

(** The mail relay accepts the message [msg], whose text is [text]. *)
Definition relay_accepts (w : World) (l : Locals) (msg : MIMEText) (text : string) : Prop :=
  smtplib_SMTP w "smtp.mailgun.org" 587 = Ok ()
  ∧ smtp_login w (mailgun_user_name l) (mailgun_key l) = Ok ()
  ∧ as_string w msg = Ok text
  ∧ smtp_sendmail w (From msg) (To msg) text = Ok ()
  ∧ smtp_quit w = Ok ().

(** The table takes whatever item is put. *)
Definition table_accepts (w : World) : Prop :=
  boto3_resource w "dynamodb" = Ok ()
  ∧ dynamodb_Table w (environ_get w "DYNAMO_TABLE_NAME") = Ok ()
  ∧ ∀ item, put_item w (environ_get w "DYNAMO_TABLE_NAME") item = Ok ().

(** Inside the SMTP session, nothing but an [SMTPException] is raised. *)
Definition smtp_errors_only (w : World) : Prop :=
  (∀ u k e, smtp_login w u k = Raised e → isinstance e SMTPException = true)
  ∧ (∀ msg e, as_string w msg = Raised e → isinstance e SMTPException = true)
  ∧ (∀ f t x e, smtp_sendmail w f t x = Raised e → isinstance e SMTPException = true).

(** The text of the notice of an accepted submission (lines 83 to 86). *)
Definition accepted_body (path : string) : string :=
  "We are happy to notify you that your assignment submission has been received and accepted."
  ++ nl ++ nl ++ "Submission Path  - " ++ path.

(** Blob and record are created together or not at all. *)
Definition created_together (t : trace) : Prop :=
  completed as_upload t = [] ↔ completed as_put t = [].

(** ** Concrete environments and events *)

Module Demo.

(** The JSON text of a value whose strings are plain printable ASCII, with
    the separators [json.dumps] uses. *)
Fixpoint json_text (v : pyval) : string :=
  let q := λ s : string, String dquote s ++ String dquote "" in
  match v with
  | PNone => "null"
  | PBool true => "true"
  | PBool false => "false"
  | PInt n => pretty n
  | PFloat r => r
  | PStr s => q s
  | PList l => "[" ++ String.concat ", " (map json_text l) ++ "]"
  | PDict d =>
      "{" ++ String.concat ", "
               (map (λ kv : string * pyval, q (fst kv) ++ ": " ++ json_text (snd kv)) d)
          ++ "}"
  end.

Definition url : pyval := PStr "https://files.example.org/hw1.zip".

(** A message with the seven fields. *)
Definition submission (st : string) : pyval :=
  PDict [("status", PStr st); ("submissionUrl", url);
         ("userEmail", PStr "ada@example.edu"); ("assignmentId", PStr "a1");
         ("first_name", PStr "Ada"); ("last_name", PStr "Lovelace");
         ("attempt", PInt 2)].

(** The event the SNS trigger delivers for a message text. *)
Definition sns_event (text : string) : pyval :=
  PDict [("Records",
          PList [PDict [("EventSource", PStr "aws:sns");
                        ("Sns", PDict [("Type", PStr "Notification");
                                       ("Message", PStr text)])]])].

Definition event_of (v : pyval) : pyval := sns_event (json_text v).

Definition service_key : pyval :=
  PDict [("type", PStr "service_account");
         ("client_email", PStr "handler@demo.iam.gserviceaccount.com");
         ("token_uri", PStr "https://oauth2.googleapis.com/token")].

Definition key_blob : string :=
  "eyJ0eXBlIjogInNlcnZpY2VfYWNjb3VudCIsICJjbGllbnRfZW1haWwiOiAiaGFuZGxlckBkZW1vLmlhbS5nc2VydmljZWFjY291bnQuY29tIiwgInRva2VuX3VyaSI6ICJodHRwczovL29hdXRoMi5nb29nbGVhcGlzLmNvbS90b2tlbiJ9".

(** base64 of the text [not json]. *)
Definition bad_blob : string := "bm90IGpzb24=".

(** The documents the demo decoder knows; any other text is rejected. *)
Definition documents : list pyval :=
  [submission "SUCCESS"; submission "NO_CONTENT"; submission "INVALID_URL";
   submission "MAX_ATTEMPTS"; submission "DEADLINE_PASSED"; submission "ARCHIVED";
   PList []; PDict [("status", PStr "SUCCESS")]; service_key].

Definition decode (s : string) : outcome pyval :=
  match find (λ v, bool_decide (json_text v = s)) documents with
  | Some v => Ok v
  | None => Raised (Exn JSONDecodeError "Expecting value: line 1 column 1 (char 0)")
  end.

Definition b64 (s : string) : outcome string :=
  if bool_decide (s = key_blob) then Ok (json_text service_key)
  else if bool_decide (s = bad_blob) then Ok "not json"
  else Raised (Exn ValueError "Incorrect padding").

Definition zip : bytes := [Byte.x50; Byte.x4b; Byte.x03; Byte.x04].

Definition found : outcome Response := Ok {| status_code := 200; content := zip |}.
Definition not_found : outcome Response := Ok {| status_code := 404; content := [] |}.

(** The demo rendering of a message: headers, an empty line, the payload. *)
Definition render (msg : MIMEText) : string :=
  "Subject: " ++ py_str (Subject msg) ++ nl ++ "From: " ++ py_str (From msg) ++ nl
  ++ "To: " ++ py_str (To msg) ++ nl ++ nl ++ payload msg.

(** A world in which everything works, except what the arguments say:
    the credential blob, the answers to the two fetches, and the answers
    of the SMTP connection, of the login and of the table. *)
Definition world_with (blob : string) (fetch : nat → outcome Response)
    (connect login put : outcome unit) : World :=
  {| environ := list_to_map
       [("GOOGLE_CREDENTIALS", blob); ("GCP_BUCKET_NAME", "submissions");
        ("FROM_ADDRESS", "noreply@demo.example.org");
        ("MAILGUN_USERNAME", "postmaster@demo.example.org");
        ("MAILGUN_SMTP_KEY", "key-1"); ("DYNAMO_TABLE_NAME", "Submissions")];
     now := {| year := 2023; month := 12; day := 1; hour := 9; minute := 5; second := 30 |};
     lib_json_loads := decode;
     lib_b64decode_utf8 := b64;
     requests_get := λ n _, fetch n;
     from_service_account_info := λ _, Ok ();
     storage_Client := Ok ();
     client_bucket := λ _, Ok ();
     upload_from_string := λ _ _ _, Ok ();
     smtplib_SMTP := λ _ _, connect;
     smtp_login := λ _ _, login;
     as_string := λ msg, Ok (render msg);
     smtp_sendmail := λ _ _ _, Ok ();
     smtp_quit := Ok ();
     boto3_resource := λ _, Ok ();
     dynamodb_Table := λ _, Ok ();
     put_item := λ _ _, put |}.

Definition nominal : World := world_with key_blob (λ _, found) (Ok ()) (Ok ()) (Ok ()).

(** What the handler reads from [event_of (submission st)] in these worlds. *)
Definition message (st : string) : Message :=
  {| status := PStr st; submission_url := url; user_email := PStr "ada@example.edu";
     assignment_id := PStr "a1"; first_name := PStr "Ada"; last_name := PStr "Lovelace";
     attempt := PInt 2 |}.

Definition locals : Locals :=
  {| bucket := "submissions";
     source_email := PStr "noreply@demo.example.org";
     mailgun_user_name := PStr "postmaster@demo.example.org";
     mailgun_key := PStr "key-1" |}.

(** Faulty worlds. *)
Definition second_fetch_404 : World :=
  world_with key_blob (λ n, if (n =? 0)%nat then found else not_found)
             (Ok ()) (Ok ()) (Ok ()).
Definition second_fetch_empty : World :=
  world_with key_blob
             (λ n, if (n =? 0)%nat then found
                   else Ok {| status_code := 200; content := [] |})
             (Ok ()) (Ok ()) (Ok ()).
Definition bad_credentials : World :=
  world_with bad_blob (λ _, found) (Ok ()) (Ok ()) (Ok ()).
Definition relay_down : World :=
  world_with key_blob (λ _, found)
             (Raised (Exn SMTPException "SMTPConnectError: (421, b'Service not available')"))
             (Ok ()) (Ok ()).
Definition login_refused : World :=
  world_with key_blob (λ _, found) (Ok ())
             (Raised (Exn SMTPException
                          "SMTPAuthenticationError: (535, b'Authentication failed')"))
             (Ok ()).
Definition table_down : World :=
  world_with key_blob (λ _, found) (Ok ()) (Ok ())
             (Raised (Exn (LibraryError "botocore.exceptions.ClientError")
                          "ResourceNotFoundException")).

End Demo.

(** ** Vocabulary of the further properties *)

(** The operation a call belongs to. *)
Inductive op : Type :=
  | OpGet
  | OpUpload
  | OpConnect
  | OpLogin
  | OpSendmail
  | OpQuit
  | OpPut.

Definition op_of (c : call) : op :=
  match c with
  | HttpGet _ => OpGet
  | BlobUpload _ _ _ => OpUpload
  | SmtpConnect _ _ => OpConnect
  | SmtpLogin _ _ => OpLogin
  | SmtpSendmail _ _ _ => OpSendmail
  | SmtpQuit => OpQuit
  | PutItem _ _ => OpPut
  end.

(** The operations of the longest run, in the order of the source: the
    fetches of lines 39 and 68, the upload of line 78, the SMTP session of
    lines 157 to 166, the put of line 174. *)
Definition program_order : list op :=
  [OpGet; OpGet; OpUpload; OpConnect; OpLogin; OpSendmail; OpQuit; OpPut].

Definition ops (t : trace) : list op := map (λ e : entry, op_of e.1) t.

(** The calls of a trace that raised. *)
Definition failed (t : trace) : list call :=
  map fst (List.filter (λ e : entry, negb e.2) t).

(** The two calls whose [SMTPException] is caught by [send_email]. *)
Definition in_session (c : call) : bool :=
  match c with
  | SmtpLogin _ _ | SmtpSendmail _ _ _ => true
  | _ => false
  end.

(** The subjects of the five notices of the dispatch. *)
Definition notice_subjects : list string :=
  ["Submission Received Successfully"; "Submission Failed - Empty File";
   "Submission Failed - Invalid URL"; "Submission Failed - max attempts reached";
   "Submission Failed - Deadline Passed"].

(** The item of lines 175 to 181 for a message and a timestamp. *)
Definition submission_record (m : Message) (timestamp : string) : list (string * pyval) :=
  [("Id", PStr (py_str (user_email m) ++ "#" ++ py_str (assignment_id m) ++ "#" ++ timestamp));
   ("AssignmentId", assignment_id m);
   ("SubmissionUrl", submission_url m);
   ("FilePath", PStr (derived_path m timestamp));
   ("Timestamp", PStr timestamp)].

(** A reading of the clock with a four-digit year. *)
Definition valid_clock (d : datetime) : Prop :=
  (1000 ≤ year d < 10000)%N ∧ (month d < 100)%N ∧ (day d < 100)%N
  ∧ (hour d < 100)%N ∧ (minute d < 100)%N ∧ (second d < 100)%N.

(** A world in another process environment. *)
Definition with_environ (env : gmap string string) (w : World) : World :=
  {| environ := env;
     now := now w;
     lib_json_loads := lib_json_loads w;
     lib_b64decode_utf8 := lib_b64decode_utf8 w;
     requests_get := requests_get w;
     from_service_account_info := from_service_account_info w;
     storage_Client := storage_Client w;
     client_bucket := client_bucket w;
     upload_from_string := upload_from_string w;
     smtplib_SMTP := smtplib_SMTP w;
     smtp_login := smtp_login w;
     as_string := as_string w;
     smtp_sendmail := smtp_sendmail w;
     smtp_quit := smtp_quit w;
     boto3_resource := boto3_resource w;
     dynamodb_Table := dynamodb_Table w;
     put_item := put_item w |}.

(** The demo world without any variable in the process environment, and
    with the two variables of the storage only. *)
Definition unconfigured : World := with_environ ∅ Demo.nominal.

Definition storage_only : World :=
  with_environ
    (list_to_map [("GOOGLE_CREDENTIALS", Demo.key_blob); ("GCP_BUCKET_NAME", "submissions")])
    Demo.nominal.

(** The demo world at another reading of the clock. *)
Definition at_time (d : datetime) (w : World) : World :=
  {| environ := environ w;
     now := d;
     lib_json_loads := lib_json_loads w;
     lib_b64decode_utf8 := lib_b64decode_utf8 w;
     requests_get := requests_get w;
     from_service_account_info := from_service_account_info w;
     storage_Client := storage_Client w;
     client_bucket := client_bucket w;
     upload_from_string := upload_from_string w;
     smtplib_SMTP := smtplib_SMTP w;
     smtp_login := smtp_login w;
     as_string := as_string w;
     smtp_sendmail := smtp_sendmail w;
     smtp_quit := smtp_quit w;
     boto3_resource := boto3_resource w;
     dynamodb_Table := dynamodb_Table w;
     put_item := put_item w |}.

(** The demo world in which the host of the submission cannot be reached:
    the fetch of line 39 raises. *)
Definition fetch_down : World :=
  Demo.world_with Demo.key_blob
    (λ n, if (n =? 0)%nat
          then Raised (Exn (LibraryError "requests.exceptions.ConnectionError")
                           "HTTPSConnectionPool(host='files.example.org', port=443): Max retries exceeded")
          else Demo.found)
    (Ok ()) (Ok ()) (Ok ()).

(** The text of an email, line by line. *)
Definition letter (first last assignment status_text attempt : string) : string :=
  String.concat nl
    ["Hello " ++ first ++ " " ++ last ++ ",";
     "";
     "Your submission with assignment ID " ++ assignment ++ " has been processed";
     status_text;
     "Attempt  - " ++ attempt;
     "";
     "Regards,";
     "Team Assessment Inc."].

(** The subject and the status text of the email of a message: those of an
    accepted submission, stored at [path], or those of its notify-only
    status. *)
Definition is_notice_of (m : Message) (path subject status_text : string) : Prop :=
  (status m = PStr "SUCCESS"
   ∧ subject = "Submission Received Successfully"
   ∧ status_text = accepted_body path)
  ∨ (status m = PStr "NO_CONTENT"
     ∧ subject = "Submission Failed - Empty File"
     ∧ status_text
       = "Your Submission could not be accepted as the file does not have any content")
  ∨ (status m = PStr "INVALID_URL"
     ∧ subject = "Submission Failed - Invalid URL"
     ∧ status_text
       = "Your Submission could not be accepted as the URL submitted does not contain a valid zip file")
  ∨ (status m = PStr "MAX_ATTEMPTS"
     ∧ subject = "Submission Failed - max attempts reached"
     ∧ status_text
       = "Your Submission could not be accepted as you have reached maximum number of attempts")
  ∨ (status m = PStr "DEADLINE_PASSED"
     ∧ subject = "Submission Failed - Deadline Passed"
     ∧ status_text = "Your Submission could not be accepted as the has passed").

(** The number a string of decimal digits denotes. *)
Fixpoint digits_value (acc : N) (s : string) : N :=
  match s with
  | EmptyString => acc
  | String c s' => digits_value (10 * acc + (N_of_ascii c - 48))%N s'
  end.

(** ** Proof automation *)

Ltac run :=
  unfold mbind, mret, M_bind, M_ret, outcome_bind, outcome_ret,
         bind, ret, lift, perform, raise, try_except in *;
  simpl in *.

(** The answers of the world and the tests of the handler, on which a run
    branches. *)
Ltac is_choice o :=
  lazymatch o with
  | requests_get _ _ _ => idtac
  | environ_item _ _ => idtac
  | lib_b64decode_utf8 _ _ => idtac
  | lib_json_loads _ _ => idtac
  | from_service_account_info _ _ => idtac
  | storage_Client _ => idtac
  | client_bucket _ _ => idtac
  | upload_from_string _ _ _ _ => idtac
  | smtplib_SMTP _ _ _ => idtac
  | smtp_login _ _ _ => idtac
  | as_string _ _ => idtac
  | smtp_sendmail _ _ _ _ => idtac
  | smtp_quit _ => idtac
  | boto3_resource _ _ => idtac
  | dynamodb_Table _ _ => idtac
  | put_item _ _ _ => idtac
  | eq_str _ _ => idtac
  | isinstance _ _ => idtac
  | (negb _ || _)%bool => idtac
  end.

Ltac elem_of_list :=
  repeat first [apply list_elem_of_here | apply list_elem_of_further].

Ltac sublist_greedy :=
  repeat first [apply sublist_nil | apply sublist_skip | apply sublist_cons].

(** Follow the run one branching point at a time, in program order. *)
Ltac branch :=
  match goal with
  | |- context [match ?o with _ => _ end] =>
      is_choice o; let E := fresh "E" in destruct o eqn:E; simpl
  end.

(** * Properties *)

(** ** Checks of the built-in operations *)

Example repr_plain : py_repr (PList [PStr "a"; PInt 3; PNone]) = "['a', 3, None]".
Proof. reflexivity. Qed.

Example repr_quote : py_repr (PStr "it's") = String dquote ("it's" ++ String dquote "").
Proof. reflexivity. Qed.

Example getitem_list : getitem (PList []) "status"
  = Raised (Exn TypeError "list indices must be integers or slices, not str").
Proof. reflexivity. Qed.

Example getitem_int : getitem (PInt 5) "status"
  = Raised (Exn TypeError "'int' object is not subscriptable").
Proof. reflexivity. Qed.

Example getitem_missing : getitem (PDict [("a", PInt 1)]) "status"
  = Raised (Exn KeyError "'status'").
Proof. reflexivity. Qed.

Example getindex_first : getindex (PList [PInt 7; PInt 8]) 0 = Ok (PInt 7).
Proof. reflexivity. Qed.

Example getindex_empty : getindex (PList []) 0
  = Raised (Exn IndexError "list index out of range").
Proof. reflexivity. Qed.

Example strftime_ex :
  strftime {| year := 2023; month := 12; day := 1; hour := 9; minute := 5; second := 30 |}
  = "20231201090530".
Proof. reflexivity. Qed.

Example arity_error_8 :
  arity_error 8
  = Exn TypeError
      "send_email() missing 3 required positional arguments: 'source_email', 'subject', and 'body'".
Proof. reflexivity. Qed.

Example json_text_list : Demo.json_text (PList [PInt 1; PNone; PBool true]) = "[1, null, true]".
Proof. reflexivity. Qed.

(** The demo decoder gives back each document from its text. *)
Example decode_documents :
  Forall (λ v, Demo.decode (Demo.json_text v) = Ok v) Demo.documents.
Proof. repeat constructor. Qed.

Example read_demo_message :
  read_message Demo.nominal (Demo.event_of (Demo.submission "SUCCESS"))
  = Ok (Demo.message "SUCCESS").
Proof. reflexivity. Qed.

Example open_demo_storage : open_storage Demo.nominal = ([], Ok Demo.locals).
Proof. reflexivity. Qed.

(** ** The monad *)

Lemma bind_ret_l {A B} (a : A) (k : A → M B) : bind (ret a) k = k a.
Proof. unfold bind, ret. by destruct (k a). Qed.

Lemma bind_ret_r {A} (m : M A) : bind m ret = m.
Proof. destruct m as [t [a | e]]; simpl; [by rewrite app_nil_r | done]. Qed.

Lemma bind_assoc {A B C} (m : M A) (k : A → M B) (h : B → M C) :
  bind (bind m k) h = bind m (λ a, bind (k a) h).
Proof.
  destruct m as [t [a | e]]; simpl; [| done].
  destruct (k a) as [t1 [b | e]]; simpl; [| done].
  destruct (h b) as [t2 r]. by rewrite app_assoc.
Qed.

(** A handler is not entered when nothing is raised, nor for an exception of
    another class. *)
Lemma try_except_ok {A} (t : trace) (a : A) (cls : pyclass) (h : exn → M A) :
  try_except (t, Ok a) cls h = (t, Ok a).
Proof. reflexivity. Qed.

Lemma try_except_other {A} (t : trace) (e : exn) (cls : pyclass) (h : exn → M A) :
  isinstance e cls = false → try_except (t, Raised e) cls h = (t, @Raised A e).
Proof. intros H. unfold try_except. by rewrite H. Qed.

Example KeyboardInterrupt_is_not_caught :
  isinstance (Exn KeyboardInterrupt "") Exception = false.
Proof. reflexivity. Qed.

Example JSONDecodeError_is_a_ValueError :
  isinstance (Exn JSONDecodeError "") ValueError = true.
Proof. reflexivity. Qed.

(** ** Failures before the dispatch *)

(** C9: when the text of the embedded message is not JSON, the decoder's
    exception leaves the handler as it is, and no call to any service has
    been made: in particular no email was attempted. *)
Theorem malformed_message_propagates (w : World) (event : pyval) (s : string) (e : exn) :
  sns_message event = Ok (PStr s) →
  lib_json_loads w s = Raised e →
  lambda_handler w event = ([], Raised e).
Proof.
  intros Hmsg Hdec. unfold lambda_handler, read_message.
  rewrite Hmsg. run. by rewrite Hdec.
Qed.

Lemma malformed_message_propagates_witness :
  lambda_handler Demo.nominal (Demo.sns_event "oops")
  = ([], Raised (Exn JSONDecodeError "Expecting value: line 1 column 1 (char 0)")).
Proof.
  apply (malformed_message_propagates Demo.nominal (Demo.sns_event "oops") "oops").
  - reflexivity.
  - reflexivity.
Defined.

Lemma read_fields_missing (message : pyval) (k : string) :
  k ∈ required_fields →
  has_field message k = false →
  ∃ e, read_fields message = Raised e
       ∧ exn_class e = (if is_object message then KeyError else TypeError).
Proof.
  intros Hk Hf.
  destruct message as [| | | | |?|d]; try (eexists; split; reflexivity).
  simpl in Hf. apply bool_decide_eq_false in Hf.
  assert (assoc k d = None) as Hnone.
  { destruct (assoc k d); [exfalso; apply Hf; eauto | done]. }
  clear Hf. unfold required_fields in Hk.
  repeat (apply elem_of_cons in Hk as [-> | Hk]); [.. | by apply elem_of_nil in Hk];
    unfold read_fields; run; rewrite ?Hnone;
    repeat case_match; simplify_eq; eauto.
Qed.

(** C10, as amended: when the decoded message lacks one of the seven fields,
    the handler raises before any call to a service is made; the exception
    is a [KeyError] when the message is a JSON object and a [TypeError] when
    it is any other JSON value. *)
Theorem missing_field_raises (w : World) (event : pyval) (s : string) (message : pyval)
    (k : string) :
  sns_message event = Ok (PStr s) →
  lib_json_loads w s = Ok message →
  k ∈ required_fields →
  has_field message k = false →
  ∃ e, lambda_handler w event = ([], Raised e)
       ∧ exn_class e = (if is_object message then KeyError else TypeError).
Proof.
  intros Hmsg Hdec Hk Hf.
  destruct (read_fields_missing message k Hk Hf) as (e & He & Hcls).
  exists e. split; [| done].
  unfold lambda_handler, read_message. rewrite Hmsg. run. rewrite Hdec.
  by rewrite He.
Qed.

Lemma missing_field_raises_witness :
  ∃ e, lambda_handler Demo.nominal
         (Demo.event_of (PDict [("status", PStr "SUCCESS")])) = ([], Raised e)
       ∧ exn_class e = KeyError.
Proof.
  apply (missing_field_raises Demo.nominal
           (Demo.event_of (PDict [("status", PStr "SUCCESS")]))
           (Demo.json_text (PDict [("status", PStr "SUCCESS")]))
           (PDict [("status", PStr "SUCCESS")]) "submissionUrl").
  - reflexivity.
  - reflexivity.
  - vm_compute. apply list_elem_of_further, list_elem_of_here.
  - reflexivity.
Defined.

(** C10, as stated, fails: the text [[]] is JSON and has none of the fields,
    and the handler raises a [TypeError], not a key-lookup error. *)
Lemma missing_field_not_always_KeyError :
  sns_message (Demo.event_of (PList [])) = Ok (PStr "[]")
  ∧ lib_json_loads Demo.nominal "[]" = Ok (PList [])
  ∧ has_field (PList []) "status" = false
  ∧ lambda_handler Demo.nominal (Demo.event_of (PList []))
    = ([], Raised (Exn TypeError "list indices must be integers or slices, not str"))
  ∧ ¬ ∃ e, lambda_handler Demo.nominal (Demo.event_of (PList [])) = ([], Raised e)
           ∧ exn_class e = KeyError.
Proof.
  repeat split; try reflexivity.
  intros (e & He & Hcls). vm_compute in He. by simplify_eq.
Qed.

(** ** The [except] clause *)

Lemma on_error_raises (w : World) (m : Message) (l : Locals) (e : exn) :
  on_error w m l e = ([], Raised (arity_error 8)).
Proof. reflexivity. Qed.

Lemma open_storage_silent (w : World) : (open_storage w).1 = [].
Proof. unfold open_storage. run. repeat case_match; simplify_eq; reflexivity. Qed.

(** Whatever the dispatch raises, the handler raises too: the clause meant
    to report the error fails on its own call of [send_email]. *)
Lemma handler_never_recovers (w : World) (event : pyval) (m : Message) (l : Locals)
    (t : trace) (e : exn) :
  reaches_dispatch w event m l →
  dispatch w m l = (t, Raised e) →
  lambda_handler w event
  = ((HttpGet (submission_url m), true) :: t,
     Raised (if isinstance e Exception then arity_error 8 else e)).
Proof.
  intros (Hm & Hget & Hl) Hd. unfold lambda_handler.
  rewrite Hm. run.
  destruct (requests_get w 0 (submission_url m)); [| done].
  rewrite Hl, Hd. simpl.
  destruct (isinstance e Exception); simpl; by rewrite ?app_nil_r.
Qed.

Lemma eq_str_other (v : pyval) (s : string) : v ≠ PStr s → eq_str v s = false.
Proof.
  intros Hne. destruct v; try done. simpl.
  apply bool_decide_eq_false. congruence.
Qed.

Lemma unrecognized_falls_through (w : World) (m : Message) (l : Locals) :
  unrecognized (status m) →
  dispatch w m l = ([], Raised (Exn ValueError "Non-success status received")).
Proof.
  intros Hu. unfold dispatch.
  rewrite !eq_str_other; [done | apply Hu; unfold recognized, notify_only; set_solver ..].
Qed.

(** ** The notifier *)

(** A call of [send_email] from the dispatch, when the relay accepts. *)
Lemma notify_accepted (w : World) (m : Message) (l : Locals) (subject body text : string) :
  relay_accepts w l (notice m l subject body) text →
  call_send_email w
    [mailgun_user_name l; mailgun_key l; user_email m; first_name m; last_name m;
     submission_url m; assignment_id m; attempt m; source_email l;
     PStr subject; PStr body]
  = (smtp_session l (notice m l subject body) text, Ok ()).
Proof.
  intros (Hc & Hl & Hr & Hs & Hq).
  unfold call_send_email, send_email, smtp_session. unfold notice in *. simpl in *.
  run. by rewrite Hc, Hl, Hr, Hs, Hq.
Qed.

(** ** The SUCCESS workflow *)

Lemma append_assoc (a b c : string) : (a ++ b) ++ c = a ++ (b ++ c).
Proof.
  induction a as [|x a IH]; [reflexivity |].
  change (String x ((a ++ b) ++ c) = String x (a ++ b ++ c)). by rewrite IH.
Qed.

(** The path the handler builds from a directory and a file name is the
    path of the specification. *)
Lemma full_path_derived (m : Message) (timestamp : string) :
  (py_str (user_email m) ++ "/" ++ py_str (assignment_id m) ++ "/")
  ++ ("submission_" ++ py_str (attempt m) ++ "_" ++ timestamp ++ ".zip")
  = derived_path m timestamp.
Proof. unfold derived_path. by rewrite !append_assoc. Qed.

(** C3: for a SUCCESS event whose fetch returns status 200 and a non-empty
    body, and whose other calls succeed, the invocation returns after
    exactly one upload, at the derived path, one notice of acceptance, and
    one put whose [FilePath] and [Timestamp] are that path and that
    timestamp. *)
Theorem success_stores_notifies_records (w : World) (event : pyval) (m : Message)
    (l : Locals) (r : Response) (text : string) :
  let timestamp := strftime (now w) in
  let path := derived_path m timestamp in
  let msg := notice m l "Submission Received Successfully" (accepted_body path) in
  reaches_dispatch w event m l →
  status m = PStr "SUCCESS" →
  requests_get w 1 (submission_url m) = Ok r →
  status_code r = 200%Z →
  content r ≠ [] →
  upload_from_string w (bucket l) path (content r) = Ok () →
  relay_accepts w l msg text →
  table_accepts w →
  ∃ t item,
    lambda_handler w event = (t, Ok ())
    ∧ attempted as_upload t = [(bucket l, path, content r)]
    ∧ attempted as_mail t = [(source_email l, user_email m, text)]
    ∧ attempted as_put t = [(environ_get w "DYNAMO_TABLE_NAME", item)]
    ∧ assoc "FilePath" item = Some (PStr path)
    ∧ assoc "Timestamp" item = Some (PStr timestamp)
    ∧ Forall (λ e : entry, e.2 = true) t.
Proof.
  intros timestamp path msg (Hm & Hget & Hl) Hst Hfetch Hcode Hbody Hup Hmail (Hb & Ht & Hput).
  pose proof (notify_accepted w m l _ _ text Hmail) as Hnotify.
  subst timestamp path msg.
  unfold lambda_handler. rewrite Hm. run.
  destruct (requests_get w 0 (submission_url m)) as [r0|]; [| done].
  rewrite Hl. unfold dispatch, update_dynamodb. rewrite Hst. simpl. run.
  rewrite Hfetch, Hcode. simpl.
  rewrite bool_decide_eq_false_2 by done. simpl.
  rewrite !full_path_derived, Hup. simpl.
  unfold accepted_body in Hnotify. rewrite Hnotify. simpl.
  rewrite Hb, Ht, Hput. simpl.
  eexists _, _. split; [reflexivity |].
  repeat split; try reflexivity.
  repeat constructor.
Qed.

Lemma success_stores_notifies_records_witness :
  ∃ t item,
    lambda_handler Demo.nominal (Demo.event_of (Demo.submission "SUCCESS")) = (t, Ok ())
    ∧ attempted as_upload t
      = [("submissions", "ada@example.edu/a1/submission_2_20231201090530.zip", Demo.zip)]
    ∧ attempted as_mail t
      = [(PStr "noreply@demo.example.org", PStr "ada@example.edu",
          Demo.render
            (notice (Demo.message "SUCCESS") Demo.locals "Submission Received Successfully"
               (accepted_body "ada@example.edu/a1/submission_2_20231201090530.zip")))]
    ∧ attempted as_put t = [(PStr "Submissions", item)]
    ∧ assoc "FilePath" item
      = Some (PStr "ada@example.edu/a1/submission_2_20231201090530.zip")
    ∧ assoc "Timestamp" item = Some (PStr "20231201090530")
    ∧ Forall (λ e : entry, e.2 = true) t.
Proof.
  apply (success_stores_notifies_records Demo.nominal
           (Demo.event_of (Demo.submission "SUCCESS")) (Demo.message "SUCCESS") Demo.locals
           {| status_code := 200; content := Demo.zip |}
           (Demo.render
              (notice (Demo.message "SUCCESS") Demo.locals "Submission Received Successfully"
                 (accepted_body "ada@example.edu/a1/submission_2_20231201090530.zip")))).
  - repeat split; vm_compute; reflexivity.
  - reflexivity.
  - reflexivity.
  - reflexivity.
  - discriminate.
  - reflexivity.
  - repeat split; vm_compute; reflexivity.
  - repeat split; intros; reflexivity.
Defined.

(** ** Shape of the handler's trace *)

(** Once the message is read, the trace starts with the fetch of line 39,
    whatever the status; the calls of the dispatch follow if the [try] is
    reached, and the [except] clause adds none. *)
Lemma handler_trace (w : World) (event : pyval) (m : Message) :
  read_message w event = Ok m →
  (lambda_handler w event).1
  = (HttpGet (submission_url m), returned (requests_get w 0 (submission_url m)))
    :: match requests_get w 0 (submission_url m), (open_storage w).2 with
       | Ok _, Ok l => (dispatch w m l).1
       | _, _ => []
       end.
Proof.
  intros Hm. unfold lambda_handler. rewrite Hm. run.
  destruct (requests_get w 0 (submission_url m)); [| done].
  pose proof (open_storage_silent w) as Hs.
  destruct (open_storage w) as [t0 [l | e]]; simpl in *; subst t0; [| done].
  destruct (dispatch w m l) as [t [[] | e]]; simpl; [done |].
  destruct (isinstance e Exception); simpl; by rewrite ?app_nil_r.
Qed.

(** [send_email] talks to the mail relay only, and sends at most once. *)
Lemma send_email_calls (w : World) (a1 a2 a3 a4 a5 a6 a7 a8 a9 a10 a11 : pyval) :
  let t := (send_email w a1 a2 a3 a4 a5 a6 a7 a8 a9 a10 a11).1 in
  attempted as_fetch t = [] ∧ attempted as_upload t = [] ∧ attempted as_put t = []
  ∧ (length (attempted as_mail t) ≤ 1)%nat.
Proof.
  unfold send_email. run.
  repeat case_match; simplify_eq; simpl; repeat split; lia.
Qed.

Lemma dispatch_notify_only (w : World) (m : Message) (l : Locals) (s : string) :
  status m = PStr s →
  s ∈ notify_only →
  dispatch w m l
  = send_email w (mailgun_user_name l) (mailgun_key l) (user_email m) (first_name m)
      (last_name m) (submission_url m) (assignment_id m) (attempt m) (source_email l)
      (PStr (failure_notice s).1) (PStr (failure_notice s).2).
Proof.
  intros Hst Hs. unfold dispatch. rewrite Hst. unfold notify_only in Hs.
  repeat (apply elem_of_cons in Hs as [-> | Hs]); [.. | by apply elem_of_nil in Hs];
    reflexivity.
Qed.

Lemma dispatch_calls_once (w : World) (m : Message) (l : Locals) (c : call) :
  (occurrences c (dispatch w m l).1 ≤ 1)%nat.
Proof.
  unfold occurrences, dispatch, update_dynamodb, call_send_email, send_email. run.
  unfold returned.
  repeat branch; destruct c; simpl; lia.
Qed.

(** The world answers each operation without looking at the calls made
    before.  Nothing is lost by it: in an invocation every operation is
    called at most once, and the URL is fetched at most twice. *)
Lemma calls_at_most_once (w : World) (event : pyval) (c : call) :
  (occurrences c (lambda_handler w event).1
   ≤ match as_fetch c with Some _ => 2 | None => 1 end)%nat.
Proof.
  destruct (read_message w event) as [m | e] eqn:Hm.
  - rewrite (handler_trace w event m Hm).
    pose proof (dispatch_calls_once w m) as Hd.
    unfold occurrences in *.
    destruct (requests_get w 0 (submission_url m)); simpl;
      [| destruct c; simpl; lia].
    destruct (open_storage w).2 as [l |]; simpl; [| destruct c; simpl; lia].
    specialize (Hd l c).
    destruct c; simpl in *; lia.
  - unfold lambda_handler, occurrences. rewrite Hm. simpl. destruct c; simpl; lia.
Qed.

(** ** The notify-only workflows *)

(** The four notify-only branches, taken alone: for an event whose status
    is NO_CONTENT, INVALID_URL, MAX_ATTEMPTS or DEADLINE_PASSED, the
    invocation makes no upload and no put, and tries to send at most one
    email; when the fetch of line 39 returns, the storage is set up and the
    relay accepts, exactly one email is sent, the notice with the subject
    and body of that status, and the invocation returns. *)
Theorem notify_only_sends_one_notice (w : World) (event : pyval) (m : Message) (s : string) :
  read_message w event = Ok m →
  status m = PStr s →
  s ∈ notify_only →
  attempted as_upload (lambda_handler w event).1 = []
  ∧ attempted as_put (lambda_handler w event).1 = []
  ∧ (length (attempted as_mail (lambda_handler w event).1) ≤ 1)%nat
  ∧ ∀ l text,
      returned (requests_get w 0 (submission_url m)) = true →
      open_storage w = ([], Ok l) →
      relay_accepts w l (notice m l (failure_notice s).1 (failure_notice s).2) text →
      lambda_handler w event
      = ((HttpGet (submission_url m), true)
           :: smtp_session l (notice m l (failure_notice s).1 (failure_notice s).2) text,
         Ok ())
      ∧ completed as_mail (lambda_handler w event).1
        = [(source_email l, user_email m, text)].
Proof.
  intros Hm Hst Hs.
  assert (attempted as_upload (lambda_handler w event).1 = []
          ∧ attempted as_put (lambda_handler w event).1 = []
          ∧ (length (attempted as_mail (lambda_handler w event).1) ≤ 1)%nat) as Hframe.
  { rewrite (handler_trace w event m Hm).
    destruct (requests_get w 0 (submission_url m)); simpl; [| repeat split; lia].
    destruct (open_storage w).2 as [l |]; simpl; [| repeat split; lia].
    rewrite (dispatch_notify_only w m l s Hst Hs).
    pose proof (send_email_calls w (mailgun_user_name l) (mailgun_key l) (user_email m)
                  (first_name m) (last_name m) (submission_url m) (assignment_id m)
                  (attempt m) (source_email l) (PStr (failure_notice s).1)
                  (PStr (failure_notice s).2)) as (_ & Hu & Hp & Hmails).
    repeat split; assumption. }
  destruct Hframe as (Hu & Hp & Hmails).
  split; [assumption | split; [assumption | split; [assumption |]]].
  intros l text Hget Hl Hrelay.
  assert (lambda_handler w event
          = ((HttpGet (submission_url m), true)
               :: smtp_session l (notice m l (failure_notice s).1 (failure_notice s).2) text,
             Ok ())) as ->; [| split; reflexivity].
  unfold lambda_handler. rewrite Hm. run.
  destruct (requests_get w 0 (submission_url m)); [| done].
  rewrite Hl, (dispatch_notify_only w m l s Hst Hs).
  pose proof (notify_accepted w m l _ _ text Hrelay) as Hn. simpl in Hn. by rewrite Hn.
Qed.

Lemma notify_only_sends_one_notice_witness :
  attempted as_upload
    (lambda_handler Demo.nominal (Demo.event_of (Demo.submission "NO_CONTENT"))).1 = []
  ∧ attempted as_put
      (lambda_handler Demo.nominal (Demo.event_of (Demo.submission "NO_CONTENT"))).1 = []
  ∧ (length (attempted as_mail
       (lambda_handler Demo.nominal (Demo.event_of (Demo.submission "NO_CONTENT"))).1)
     ≤ 1)%nat
  ∧ ∀ l text,
      returned (requests_get Demo.nominal 0 (submission_url (Demo.message "NO_CONTENT")))
      = true →
      open_storage Demo.nominal = ([], Ok l) →
      relay_accepts Demo.nominal l
        (notice (Demo.message "NO_CONTENT") l
           (failure_notice "NO_CONTENT").1 (failure_notice "NO_CONTENT").2) text →
      lambda_handler Demo.nominal (Demo.event_of (Demo.submission "NO_CONTENT"))
      = ((HttpGet (submission_url (Demo.message "NO_CONTENT")), true)
           :: smtp_session l
                (notice (Demo.message "NO_CONTENT") l
                   (failure_notice "NO_CONTENT").1 (failure_notice "NO_CONTENT").2) text,
         Ok ())
      ∧ completed as_mail
          (lambda_handler Demo.nominal (Demo.event_of (Demo.submission "NO_CONTENT"))).1
        = [(source_email l, user_email (Demo.message "NO_CONTENT"), text)].
Proof.
  apply (notify_only_sends_one_notice Demo.nominal
           (Demo.event_of (Demo.submission "NO_CONTENT")) (Demo.message "NO_CONTENT")
           "NO_CONTENT").
  - reflexivity.
  - reflexivity.
  - apply list_elem_of_here.
Defined.

(** In the demo world the hypotheses of the second half hold too, and the
    one email is the notice of an empty file. *)
Example no_content_run :
  lambda_handler Demo.nominal (Demo.event_of (Demo.submission "NO_CONTENT"))
  = ((HttpGet Demo.url, true)
       :: smtp_session Demo.locals
            (notice (Demo.message "NO_CONTENT") Demo.locals
               "Submission Failed - Empty File"
               "Your Submission could not be accepted as the file does not have any content")
            (Demo.render
               (notice (Demo.message "NO_CONTENT") Demo.locals
                  "Submission Failed - Empty File"
                  "Your Submission could not be accepted as the file does not have any content")),
     Ok ()).
Proof. reflexivity. Qed.

(** ** Failures of the mail relay *)

(** What the [try] of lines 159 to 165 achieves: an [SMTPException] raised
    while logging in or sending is caught inside [send_email]; provided that
    the connection was opened, that nothing else is raised in the session
    and that [quit] succeeds, [send_email] returns, and so does an
    invocation of the handler for a notify-only status that reached the
    dispatch. *)
Theorem smtp_errors_in_session_are_swallowed (w : World) :
  smtplib_SMTP w "smtp.mailgun.org" 587 = Ok () →
  smtp_quit w = Ok () →
  smtp_errors_only w →
  (∀ a1 a2 a3 a4 a5 a6 a7 a8 a9 a10 a11,
     (send_email w a1 a2 a3 a4 a5 a6 a7 a8 a9 a10 a11).2 = Ok ())
  ∧ (∀ event m l s,
       reaches_dispatch w event m l →
       status m = PStr s →
       s ∈ notify_only →
       (lambda_handler w event).2 = Ok ()).
Proof.
  intros Hc Hq (Hlogin & Hrender & Hsend).
  assert (∀ a1 a2 a3 a4 a5 a6 a7 a8 a9 a10 a11,
            (send_email w a1 a2 a3 a4 a5 a6 a7 a8 a9 a10 a11).2 = Ok ()) as Hmail.
  { intros. unfold send_email. run. rewrite Hc, Hq.
    destruct (smtp_login w a1 a2) as [[] | e1] eqn:E1; simpl.
    - destruct (as_string w _) as [text | e2] eqn:E2; simpl.
      + destruct (smtp_sendmail w a9 a3 text) as [[] | e3] eqn:E3; simpl; [done |].
        by rewrite (Hsend _ _ _ _ E3).
      + by rewrite (Hrender _ _ E2).
    - by rewrite (Hlogin _ _ _ E1). }
  split; [exact Hmail |].
  intros event m l s (Hm & Hget & Hl) Hst Hs.
  unfold lambda_handler. rewrite Hm. run.
  destruct (requests_get w 0 (submission_url m)); [| done].
  rewrite Hl, (dispatch_notify_only w m l s Hst Hs).
  specialize (Hmail (mailgun_user_name l) (mailgun_key l) (user_email m) (first_name m)
                (last_name m) (submission_url m) (assignment_id m) (attempt m)
                (source_email l) (PStr (failure_notice s).1) (PStr (failure_notice s).2)).
  destruct (send_email _ _ _ _ _ _ _ _ _ _ _ _) as [t r]. simpl in *. by subst r.
Qed.

Lemma smtp_errors_in_session_are_swallowed_witness :
  (∀ a1 a2 a3 a4 a5 a6 a7 a8 a9 a10 a11,
     (send_email Demo.login_refused a1 a2 a3 a4 a5 a6 a7 a8 a9 a10 a11).2 = Ok ())
  ∧ (∀ event m l s,
       reaches_dispatch Demo.login_refused event m l →
       status m = PStr s →
       s ∈ notify_only →
       (lambda_handler Demo.login_refused event).2 = Ok ()).
Proof.
  apply (smtp_errors_in_session_are_swallowed Demo.login_refused).
  - reflexivity.
  - reflexivity.
  - repeat split.
    + intros u k e H. vm_compute in H. inversion H. reflexivity.
    + intros msg e H. discriminate H.
    + intros f t x e H. discriminate H.
Defined.

Example login_refused_run :
  lambda_handler Demo.login_refused (Demo.event_of (Demo.submission "MAX_ATTEMPTS"))
  = ([(HttpGet Demo.url, true);
      (SmtpConnect "smtp.mailgun.org" 587, true);
      (SmtpLogin (PStr "postmaster@demo.example.org") (PStr "key-1"), false);
      (SmtpQuit, true)],
     Ok ()).
Proof. reflexivity. Qed.

(** C7: when the connection to the relay cannot be opened, the exception of
    [smtplib.SMTP], raised at line 157 before the [try], leaves [send_email]
    although it is an [SMTPException], and the invocation of the handler
    fails; no failure of the mail transport is caught there. *)
Lemma connection_failure_propagates :
  isinstance (Exn SMTPException "SMTPConnectError: (421, b'Service not available')")
             SMTPException = true
  ∧ send_email Demo.relay_down
      (PStr "postmaster@demo.example.org") (PStr "key-1") (PStr "ada@example.edu")
      (PStr "Ada") (PStr "Lovelace") Demo.url (PStr "a1") (PInt 2)
      (PStr "noreply@demo.example.org") (PStr "Submission Failed - Empty File")
      (PStr "Your Submission could not be accepted as the file does not have any content")
    = ([(SmtpConnect "smtp.mailgun.org" 587, false)],
       Raised (Exn SMTPException "SMTPConnectError: (421, b'Service not available')"))
  ∧ lambda_handler Demo.relay_down (Demo.event_of (Demo.submission "NO_CONTENT"))
    = ([(HttpGet Demo.url, true); (SmtpConnect "smtp.mailgun.org" 587, false)],
       Raised (arity_error 8)).
Proof. repeat split; reflexivity. Qed.

(** ** Blob and record *)

(** The properties of blob and record are stated with the outcome of the
    invocation, further down. *)

(** ** The error path *)

(** C1: on an event with an unknown status the dispatch raises, and the
    handler does not return: the [except] clause calls [send_email] with
    eight arguments, which raises a [TypeError] before any email is sent. *)
Theorem unknown_status_is_not_reported :
  dispatch Demo.nominal (Demo.message "ARCHIVED") Demo.locals
  = ([], Raised (Exn ValueError "Non-success status received"))
  ∧ lambda_handler Demo.nominal (Demo.event_of (Demo.submission "ARCHIVED"))
    = ([(HttpGet Demo.url, true)],
       Raised (Exn TypeError
                 "send_email() missing 3 required positional arguments: 'source_email', 'subject', and 'body'")).
Proof. split; reflexivity. Qed.

(** C2: for an unknown status, and for a SUCCESS event whose fetch returns
    404 or an empty body, nothing is stored or recorded, but no email is
    sent either and the invocation raises a [TypeError]. *)
Theorem rejected_submission_is_not_reported :
  let failure : outcome () :=
    Raised (Exn TypeError
              "send_email() missing 3 required positional arguments: 'source_email', 'subject', and 'body'") in
  lambda_handler Demo.nominal (Demo.event_of (Demo.submission "ARCHIVED"))
  = ([(HttpGet Demo.url, true)], failure)
  ∧ lambda_handler Demo.second_fetch_404 (Demo.event_of (Demo.submission "SUCCESS"))
    = ([(HttpGet Demo.url, true); (HttpGet Demo.url, true)], failure)
  ∧ lambda_handler Demo.second_fetch_empty (Demo.event_of (Demo.submission "SUCCESS"))
    = ([(HttpGet Demo.url, true); (HttpGet Demo.url, true)], failure).
Proof. repeat split; reflexivity. Qed.

(** In every world, a SUCCESS dispatch whose fetch returns another status
    than 200, or an empty body, raises right after that fetch. *)
Lemma rejected_fetch_raises (w : World) (m : Message) (l : Locals) (r : Response) :
  status m = PStr "SUCCESS" →
  requests_get w 1 (submission_url m) = Ok r →
  status_code r ≠ 200%Z ∨ content r = [] →
  dispatch w m l
  = ([(HttpGet (submission_url m), true)],
     Raised (Exn ValueError "Invalid URL or empty content")).
Proof.
  intros Hst Hr Hbad. unfold dispatch. rewrite Hst. simpl. run. rewrite Hr. simpl.
  destruct Hbad as [Hcode | Hbody].
  - apply Z.eqb_neq in Hcode. by rewrite Hcode.
  - rewrite Hbody. simpl. by rewrite orb_true_r.
Qed.

(** ** The fetch before the dispatch *)

(** C5: for each of the four notify-only statuses the handler fetches the
    submission URL, before it looks at the status. *)
Theorem fetch_precedes_dispatch :
  Forall (λ s,
            ∃ t, lambda_handler Demo.nominal (Demo.event_of (Demo.submission s))
                 = ((HttpGet Demo.url, true) :: t, Ok ())
                 ∧ attempted as_fetch t = [])
         notify_only.
Proof. repeat constructor; eexists; split; reflexivity. Qed.

(** C6: when the credential blob does not decode to JSON the invocation
    raises the decoder's exception, after the fetch of line 39 has been
    made. *)
Theorem bad_credentials_fail_after_fetch :
  lib_b64decode_utf8 Demo.bad_credentials Demo.bad_blob = Ok "not json"
  ∧ lambda_handler Demo.bad_credentials (Demo.event_of (Demo.submission "SUCCESS"))
    = ([(HttpGet Demo.url, true)],
       Raised (Exn JSONDecodeError "Expecting value: line 1 column 1 (char 0)")).
Proof. split; reflexivity. Qed.

(** In every world: with a credential blob that is not JSON, an invocation
    that reads its message has made exactly one call when it raises, the
    fetch of line 39. *)
Lemma bad_credentials_raise (w : World) (event : pyval) (m : Message)
    (blob text : string) (e : exn) :
  read_message w event = Ok m →
  environ_item w "GOOGLE_CREDENTIALS" = Ok blob →
  lib_b64decode_utf8 w blob = Ok text →
  lib_json_loads w text = Raised e →
  ∃ e', lambda_handler w event
        = ([(HttpGet (submission_url m), returned (requests_get w 0 (submission_url m)))],
           Raised e').
Proof.
  intros Hm Hblob Htext He. unfold lambda_handler, open_storage. rewrite Hm. run.
  destruct (requests_get w 0 (submission_url m)); simpl; [| eauto].
  rewrite Hblob. simpl. rewrite Htext. simpl. rewrite He.
  destruct (isinstance e JSONDecodeError); simpl; eauto.
Qed.

(** * Further properties of the handler *)

(** ** Outcome and trace of an invocation *)

Lemma eq_str_true (v : pyval) (s : string) : eq_str v s = true → v = PStr s.
Proof.
  destruct v; try discriminate. simpl. intros H.
  apply bool_decide_eq_true in H. by subst.
Qed.

(** How an invocation that has read its message ends. *)
Lemma handler_outcome (w : World) (event : pyval) (m : Message) :
  read_message w event = Ok m →
  (lambda_handler w event).2
  = match requests_get w 0 (submission_url m) with
    | Raised e => Raised e
    | Ok _ =>
        match (open_storage w).2 with
        | Raised e => Raised e
        | Ok l =>
            match (dispatch w m l).2 with
            | Ok u => Ok u
            | Raised e => Raised (if isinstance e Exception then arity_error 8 else e)
            end
        end
    end.
Proof.
  intros Hm. unfold lambda_handler. rewrite Hm. run.
  destruct (requests_get w 0 (submission_url m)); [| done].
  destruct (open_storage w) as [t0 [l | e]]; simpl; [| done].
  destruct (dispatch w m l) as [t [[] | e]]; simpl; [done |].
  by destruct (isinstance e Exception).
Qed.

Lemma handler_unread (w : World) (event : pyval) (e : exn) :
  read_message w event = Raised e → lambda_handler w event = ([], Raised e).
Proof. intros Hm. unfold lambda_handler. by rewrite Hm. Qed.

(** ** Blob and record, with the outcome *)

Lemma dispatch_put_follows_upload (w : World) (m : Message) (l : Locals)
    (table : pyval) (item : list (string * pyval)) :
  (table, item) ∈ completed as_put (dispatch w m l).1 →
  ∃ t1 t2 b path data,
    (dispatch w m l).1 = (t1 ++ (BlobUpload b path data, true) :: t2)%list
    ∧ (PutItem table item, true) ∈ t2
    ∧ completed as_upload (dispatch w m l).1 = [(b, path, data)]
    ∧ completed as_put (dispatch w m l).1 = [(table, item)]
    ∧ assoc "FilePath" item = Some (PStr path).
Proof.
  unfold dispatch, update_dynamodb, call_send_email, send_email. run. unfold returned.
  repeat branch; intros Hin;
    try (by apply elem_of_nil in Hin);
    apply list_elem_of_singleton in Hin; simplify_eq;
    eexists [_], _, _, _, _; (split; [reflexivity |]);
    (split; [elem_of_list |]); repeat split; reflexivity.
Qed.

Lemma dispatch_return_together (w : World) (m : Message) (l : Locals) :
  (dispatch w m l).2 = Ok () → created_together (dispatch w m l).1.
Proof.
  unfold created_together, dispatch, update_dynamodb, call_send_email, send_email. run.
  unfold returned.
  repeat branch; intros Hok; try discriminate Hok; split; intros H; first [done | discriminate H].
Qed.

(** C4, as amended: blob and record are created together or not at all in
    every invocation that returns normally; and in every invocation a
    record is created only after the blob: the upload that returned comes
    earlier in the trace than the put, the two are the only ones, and the
    record's [FilePath] is the blob's path. *)
Theorem blob_and_record_together_on_return (w : World) (event : pyval) :
  ((lambda_handler w event).2 = Ok () → created_together (lambda_handler w event).1)
  ∧ ∀ table item,
      (table, item) ∈ completed as_put (lambda_handler w event).1 →
      ∃ t1 t2 b path data,
        (lambda_handler w event).1 = (t1 ++ (BlobUpload b path data, true) :: t2)%list
        ∧ (PutItem table item, true) ∈ t2
        ∧ completed as_upload (lambda_handler w event).1 = [(b, path, data)]
        ∧ completed as_put (lambda_handler w event).1 = [(table, item)]
        ∧ assoc "FilePath" item = Some (PStr path).
Proof.
  destruct (read_message w event) as [m | e] eqn:Hm.
  - rewrite (handler_outcome w event m Hm), (handler_trace w event m Hm).
    destruct (requests_get w 0 (submission_url m)) as [r0 |]; simpl;
      [| split; [done | intros ? ? Hin; by apply elem_of_nil in Hin]].
    destruct (open_storage w).2 as [l |]; simpl;
      [| split; [done | intros ? ? Hin; by apply elem_of_nil in Hin]].
    split.
    + destruct (dispatch w m l).2 as [[] |] eqn:Hd; [| done].
      intros _. by apply dispatch_return_together.
    + intros table item Hin.
      apply dispatch_put_follows_upload in Hin
        as (t1 & t2 & b & path & data & Ht & Hput & Hup & Hrec & Hpath).
      exists ((HttpGet (submission_url m), true) :: t1), t2, b, path, data.
      rewrite Ht. simpl. rewrite <- Ht. eauto 10.
  - rewrite (handler_unread w event e Hm). simpl.
    split; [done | intros ? ? Hin; by apply elem_of_nil in Hin].
Qed.

Lemma blob_and_record_together_on_return_witness :
  created_together
    (lambda_handler Demo.nominal (Demo.event_of (Demo.submission "SUCCESS"))).1
  ∧ created_together
      (lambda_handler Demo.nominal (Demo.event_of (Demo.submission "NO_CONTENT"))).1.
Proof.
  split.
  - apply (blob_and_record_together_on_return Demo.nominal
             (Demo.event_of (Demo.submission "SUCCESS"))).
    reflexivity.
  - apply (blob_and_record_together_on_return Demo.nominal
             (Demo.event_of (Demo.submission "NO_CONTENT"))).
    reflexivity.
Defined.

(** C4, as stated, fails: when the table refuses the put, the blob has been
    uploaded and no record is created; nothing removes the blob. *)
Lemma blob_without_record_when_put_fails :
  lambda_handler Demo.table_down (Demo.event_of (Demo.submission "SUCCESS"))
  = ((HttpGet Demo.url, true)
       :: (HttpGet Demo.url, true)
       :: (BlobUpload "submissions" "ada@example.edu/a1/submission_2_20231201090530.zip"
             Demo.zip, true)
       :: (smtp_session Demo.locals
             (notice (Demo.message "SUCCESS") Demo.locals "Submission Received Successfully"
                (accepted_body "ada@example.edu/a1/submission_2_20231201090530.zip"))
             (Demo.render
                (notice (Demo.message "SUCCESS") Demo.locals
                   "Submission Received Successfully"
                   (accepted_body "ada@example.edu/a1/submission_2_20231201090530.zip")))
           ++ [(PutItem (PStr "Submissions")
                  (submission_record (Demo.message "SUCCESS") "20231201090530"), false)])%list,
     Raised (arity_error 8))
  ∧ completed as_upload
      (lambda_handler Demo.table_down (Demo.event_of (Demo.submission "SUCCESS"))).1
    = [("submissions", "ada@example.edu/a1/submission_2_20231201090530.zip", Demo.zip)]
  ∧ completed as_put
      (lambda_handler Demo.table_down (Demo.event_of (Demo.submission "SUCCESS"))).1 = []
  ∧ ¬ created_together
        (lambda_handler Demo.table_down (Demo.event_of (Demo.submission "SUCCESS"))).1.
Proof.
  repeat split; try reflexivity.
  intros [_ H]. vm_compute in H. by specialize (H eq_refl).
Qed.

(** ** The fetch before the dispatch and the notices *)

(** In every world: when the fetch of line 39 raises, its exception leaves
    the handler, whatever the status, and that fetch is the only call. *)
Lemma stray_fetch_failure_propagates (w : World) (event : pyval) (m : Message) (e : exn) :
  read_message w event = Ok m →
  requests_get w 0 (submission_url m) = Raised e →
  lambda_handler w event = ([(HttpGet (submission_url m), false)], Raised e).
Proof. intros Hm He. unfold lambda_handler. rewrite Hm. run. by rewrite He. Qed.

(** C8: for an INVALID_URL event whose URL cannot be fetched, the fetch of
    line 39 raises before the dispatch: the invocation fails and the
    notice of the invalid URL is not sent, although every other service
    works.  (No upload and no put are made.) *)
Theorem fetch_failure_suppresses_the_notice :
  read_message fetch_down (Demo.event_of (Demo.submission "INVALID_URL"))
  = Ok (Demo.message "INVALID_URL")
  ∧ lambda_handler fetch_down (Demo.event_of (Demo.submission "INVALID_URL"))
    = ([(HttpGet Demo.url, false)],
       Raised (Exn (LibraryError "requests.exceptions.ConnectionError")
                   "HTTPSConnectionPool(host='files.example.org', port=443): Max retries exceeded"))
  ∧ attempted as_mail
      (lambda_handler fetch_down (Demo.event_of (Demo.submission "INVALID_URL"))).1 = []
  ∧ relay_accepts fetch_down Demo.locals
      (notice (Demo.message "INVALID_URL") Demo.locals
         (failure_notice "INVALID_URL").1 (failure_notice "INVALID_URL").2)
      (Demo.render
         (notice (Demo.message "INVALID_URL") Demo.locals
            (failure_notice "INVALID_URL").1 (failure_notice "INVALID_URL").2))
  ∧ open_storage fetch_down = ([], Ok Demo.locals).
Proof. repeat split; reflexivity. Qed.

(** ** Events without a message *)

Lemma getitem_error_class (v : pyval) (k : string) (e : exn) :
  getitem v k = Raised e → exn_class e ∈ [KeyError; IndexError; TypeError].
Proof.
  unfold getitem, not_subscriptable. intros H.
  repeat case_match; simplify_eq; simpl; set_solver.
Qed.

Lemma getindex_error_class (v : pyval) (i : Z) (e : exn) :
  getindex v i = Raised e → exn_class e ∈ [KeyError; IndexError; TypeError].
Proof.
  unfold getindex, not_subscriptable. intros H.
  repeat case_match; simplify_eq; simpl; set_solver.
Qed.

(** X1: when the event has no [Records[0].Sns.Message], the exception of the
    failing subscript (a [KeyError], an [IndexError] or a [TypeError]) leaves
    the handler, and no call to any service has been made. *)
Theorem absent_message_propagates (w : World) (event : pyval) (e : exn) :
  sns_message event = Raised e →
  lambda_handler w event = ([], Raised e)
  ∧ exn_class e ∈ [KeyError; IndexError; TypeError].
Proof.
  intros H. split.
  - apply handler_unread. unfold read_message. by rewrite H.
  - revert H. unfold sns_message. run.
    destruct (getitem event "Records") as [records |] eqn:E1;
      [| intros; simplify_eq; eauto using getitem_error_class].
    destruct (getindex records 0) as [record |] eqn:E2;
      [| intros; simplify_eq; eauto using getindex_error_class].
    destruct (getitem record "Sns") as [sns |] eqn:E3;
      [| intros; simplify_eq; eauto using getitem_error_class].
    eauto using getitem_error_class.
Qed.

Lemma absent_message_propagates_witness :
  lambda_handler Demo.nominal (PDict [("Records", PList [])])
  = ([], Raised (Exn IndexError "list index out of range"))
  ∧ exn_class (Exn IndexError "list index out of range")
    ∈ [KeyError; IndexError; TypeError].
Proof.
  apply (absent_message_propagates Demo.nominal (PDict [("Records", PList [])])).
  reflexivity.
Defined.

(** X2: when the message of the event is not text, [json.loads] raises a
    [TypeError] and no call to any service has been made. *)
Theorem non_text_message_raises (w : World) (event : pyval) (v : pyval) :
  sns_message event = Ok v →
  (∀ s, v ≠ PStr s) →
  ∃ e, lambda_handler w event = ([], Raised e) ∧ exn_class e = TypeError.
Proof.
  intros Hv Hns. eexists. split.
  - apply handler_unread. unfold read_message. rewrite Hv. run.
    destruct v; try reflexivity. by destruct (Hns s).
  - reflexivity.
Qed.

Lemma non_text_message_raises_witness :
  ∃ e, lambda_handler Demo.nominal
         (PDict [("Records", PList [PDict [("Sns", PDict [("Message", PInt 7)])]])])
       = ([], Raised e)
       ∧ exn_class e = TypeError.
Proof.
  apply (non_text_message_raises Demo.nominal
           (PDict [("Records", PList [PDict [("Sns", PDict [("Message", PInt 7)])]])])
           (PInt 7)).
  - reflexivity.
  - discriminate.
Defined.

(** ** What is uploaded, mailed and recorded *)

Lemma open_storage_locals (w : World) (l : Locals) :
  (open_storage w).2 = Ok l →
  environ w !! "GCP_BUCKET_NAME" = Some (bucket l)
  ∧ is_Some (environ w !! "GOOGLE_CREDENTIALS")
  ∧ source_email l = environ_get w "FROM_ADDRESS"
  ∧ mailgun_user_name l = environ_get w "MAILGUN_USERNAME"
  ∧ mailgun_key l = environ_get w "MAILGUN_SMTP_KEY".
Proof.
  unfold open_storage, environ_item. run.
  destruct (environ w !! "GOOGLE_CREDENTIALS") as [blob |] eqn:Eblob; simpl; [| done].
  destruct (lib_b64decode_utf8 w blob); simpl; [| done].
  destruct (lib_json_loads w a) as [creds | e]; simpl;
    [| by destruct (isinstance e JSONDecodeError)].
  destruct (from_service_account_info w creds); simpl; [| done].
  destruct (storage_Client w); simpl; [| done].
  destruct (environ w !! "GCP_BUCKET_NAME") as [name |] eqn:Ename; simpl; [| done].
  destruct (client_bucket w name); simpl; [| done].
  intros [= <-]. simpl. eauto 10.
Qed.

Lemma dispatch_upload_inv (w : World) (m : Message) (l : Locals)
    (b p : string) (data : bytes) :
  (b, p, data) ∈ attempted as_upload (dispatch w m l).1 →
  status m = PStr "SUCCESS"
  ∧ b = bucket l
  ∧ p = derived_path m (strftime (now w))
  ∧ ∃ r, requests_get w 1 (submission_url m) = Ok r
         ∧ status_code r = 200%Z ∧ content r ≠ [] ∧ data = content r.
Proof.
  unfold dispatch, update_dynamodb, call_send_email, send_email. run. unfold returned.
  repeat branch; intros Hin;
    try (by apply elem_of_nil in Hin);
    apply list_elem_of_singleton in Hin; simplify_eq;
    repeat match goal with
           | H : eq_str _ _ = true |- _ => apply eq_str_true in H
           | H : (_ || _)%bool = false |- _ => apply orb_false_elim in H as [? ?]
           | H : negb _ = false |- _ => apply negb_false_iff, Z.eqb_eq in H
           | H : bool_decide _ = false |- _ => apply bool_decide_eq_false in H
           end;
    (split; [done | split; [done | split; [apply full_path_derived | eauto]]]).
Qed.

(** X3: whatever the environment, an upload is attempted only for a SUCCESS
    event whose fetch of line 68 returned status 200 and a body that is not
    empty; the bytes uploaded are that body, the bucket is the one named by
    GCP_BUCKET_NAME and the path is the derived path at the clock's time. *)
Theorem upload_is_the_fetched_submission (w : World) (event : pyval)
    (b p : string) (data : bytes) :
  (b, p, data) ∈ attempted as_upload (lambda_handler w event).1 →
  ∃ m r,
    read_message w event = Ok m
    ∧ status m = PStr "SUCCESS"
    ∧ requests_get w 1 (submission_url m) = Ok r
    ∧ status_code r = 200%Z ∧ content r ≠ [] ∧ data = content r
    ∧ environ w !! "GCP_BUCKET_NAME" = Some b
    ∧ p = derived_path m (strftime (now w)).
Proof.
  destruct (read_message w event) as [m | e] eqn:Hm.
  - rewrite (handler_trace w event m Hm).
    destruct (requests_get w 0 (submission_url m)); simpl;
      [| intros Hin; by apply elem_of_nil in Hin].
    destruct (open_storage w).2 as [l |] eqn:Hl; simpl;
      [| intros Hin; by apply elem_of_nil in Hin].
    intros Hin. apply dispatch_upload_inv in Hin as (Hst & -> & -> & r & Hr & Hc & Hb & ->).
    apply open_storage_locals in Hl as (Hbucket & _).
    exists m, r. eauto 10.
  - rewrite (handler_unread w event e Hm). simpl.
    intros Hin. by apply elem_of_nil in Hin.
Qed.

Lemma upload_is_the_fetched_submission_witness :
  ∃ m r,
    read_message Demo.nominal (Demo.event_of (Demo.submission "SUCCESS")) = Ok m
    ∧ status m = PStr "SUCCESS"
    ∧ requests_get Demo.nominal 1 (submission_url m) = Ok r
    ∧ status_code r = 200%Z ∧ content r ≠ [] ∧ Demo.zip = content r
    ∧ environ Demo.nominal !! "GCP_BUCKET_NAME" = Some "submissions"
    ∧ "ada@example.edu/a1/submission_2_20231201090530.zip"
      = derived_path m (strftime (now Demo.nominal)).
Proof.
  apply (upload_is_the_fetched_submission Demo.nominal
           (Demo.event_of (Demo.submission "SUCCESS"))).
  vm_compute. apply list_elem_of_here.
Defined.

Lemma message_body_letter (first last assignment body attempt : pyval) :
  message_body first last assignment body attempt
  = letter (py_str first) (py_str last) (py_str assignment) (py_str body) (py_str attempt).
Proof.
  unfold message_body, letter. simpl.
  rewrite !append_assoc. reflexivity.
Qed.

Lemma dispatch_mail_inv (w : World) (m : Message) (l : Locals)
    (f t : pyval) (x : string) :
  (f, t, x) ∈ attempted as_mail (dispatch w m l).1 →
  f = source_email l ∧ t = user_email m
  ∧ ∃ subject status_text,
      is_notice_of m (derived_path m (strftime (now w))) subject status_text
      ∧ as_string w
          {| payload :=
               letter (py_str (first_name m)) (py_str (last_name m))
                      (py_str (assignment_id m)) status_text (py_str (attempt m));
             Subject := PStr subject;
             From := source_email l;
             To := user_email m |}
        = Ok x.
Proof.
  unfold dispatch, update_dynamodb, call_send_email, send_email. run. unfold returned.
  repeat branch; intros Hin;
    try (by apply elem_of_nil in Hin);
    apply list_elem_of_singleton in Hin; simplify_eq;
    repeat match goal with
           | H : eq_str _ _ = true |- _ => apply eq_str_true in H
           | H : as_string _ _ = Ok _ |- _ =>
               rewrite message_body_letter, ?full_path_derived in H; simpl in H
           end;
    (split; [done | split; [done |]]);
    eexists _, _; (split; [| eassumption]);
    unfold is_notice_of, accepted_body; eauto 10.
Qed.

(** X4: whatever the environment, every email the handler tries to send goes
    to the [userEmail] of the message, from the address in FROM_ADDRESS
    ([None] when it is not set), with the subject and the status text of the
    status of that message and no other, in the letter of lines 137 to 147
    filled with the first name, last name, assignment and attempt of the
    message.  The generic error notice of the [except] clause is never
    sent. *)
Theorem mail_goes_to_the_submitter (w : World) (event : pyval) (f t : pyval) (x : string) :
  (f, t, x) ∈ attempted as_mail (lambda_handler w event).1 →
  ∃ m subject status_text,
    read_message w event = Ok m
    ∧ t = user_email m
    ∧ f = environ_get w "FROM_ADDRESS"
    ∧ is_notice_of m (derived_path m (strftime (now w))) subject status_text
    ∧ as_string w
        {| payload :=
             letter (py_str (first_name m)) (py_str (last_name m))
                    (py_str (assignment_id m)) status_text (py_str (attempt m));
           Subject := PStr subject;
           From := environ_get w "FROM_ADDRESS";
           To := user_email m |}
      = Ok x.
Proof.
  destruct (read_message w event) as [m | e] eqn:Hm.
  - rewrite (handler_trace w event m Hm).
    destruct (requests_get w 0 (submission_url m)); simpl;
      [| intros Hin; by apply elem_of_nil in Hin].
    destruct (open_storage w).2 as [l |] eqn:Hl; simpl;
      [| intros Hin; by apply elem_of_nil in Hin].
    intros Hin.
    apply dispatch_mail_inv in Hin as (-> & -> & subject & text & Hs & Hx).
    pose proof (open_storage_locals w l Hl) as (_ & _ & Hfrom & _).
    rewrite Hfrom in Hx. exists m, subject, text. rewrite Hfrom. eauto 10.
  - rewrite (handler_unread w event e Hm). simpl.
    intros Hin. by apply elem_of_nil in Hin.
Qed.

Lemma mail_goes_to_the_submitter_witness :
  ∃ m subject status_text,
    read_message Demo.nominal (Demo.event_of (Demo.submission "INVALID_URL")) = Ok m
    ∧ PStr "ada@example.edu" = user_email m
    ∧ PStr "noreply@demo.example.org" = environ_get Demo.nominal "FROM_ADDRESS"
    ∧ is_notice_of m (derived_path m (strftime (now Demo.nominal))) subject status_text
    ∧ as_string Demo.nominal
        {| payload :=
             letter (py_str (first_name m)) (py_str (last_name m))
                    (py_str (assignment_id m)) status_text (py_str (attempt m));
           Subject := PStr subject;
           From := environ_get Demo.nominal "FROM_ADDRESS";
           To := user_email m |}
      = Ok (Demo.render
              (notice (Demo.message "INVALID_URL") Demo.locals
                 "Submission Failed - Invalid URL"
                 "Your Submission could not be accepted as the URL submitted does not contain a valid zip file")).
Proof.
  apply (mail_goes_to_the_submitter Demo.nominal
           (Demo.event_of (Demo.submission "INVALID_URL"))).
  vm_compute. apply list_elem_of_here.
Defined.

(** The letter of an email, written out for the demo message. *)
Example letter_of_a_notice :
  letter "Ada" "Lovelace" "a1" "Your Submission could not be accepted as the has passed" "2"
  = "Hello Ada Lovelace," ++ nl ++ nl
    ++ "Your submission with assignment ID a1 has been processed" ++ nl
    ++ "Your Submission could not be accepted as the has passed" ++ nl
    ++ "Attempt  - 2" ++ nl ++ nl ++ "Regards," ++ nl ++ "Team Assessment Inc.".
Proof. reflexivity. Qed.

Lemma dispatch_put_inv (w : World) (m : Message) (l : Locals)
    (table : pyval) (item : list (string * pyval)) :
  (table, item) ∈ attempted as_put (dispatch w m l).1 →
  status m = PStr "SUCCESS"
  ∧ table = environ_get w "DYNAMO_TABLE_NAME"
  ∧ item = submission_record m (strftime (now w))
  ∧ ∃ data,
      completed as_upload (dispatch w m l).1
      = [(bucket l, derived_path m (strftime (now w)), data)].
Proof.
  unfold dispatch, update_dynamodb, call_send_email, send_email. run. unfold returned.
  repeat branch; intros Hin;
    try (by apply elem_of_nil in Hin);
    apply list_elem_of_singleton in Hin; simplify_eq;
    repeat match goal with
           | H : eq_str _ _ = true |- _ => apply eq_str_true in H
           end;
    unfold submission_record; rewrite !full_path_derived; eauto 10.
Qed.

(** X5: whatever the environment, every put the handler attempts is for a
    SUCCESS event, goes to the table named by DYNAMO_TABLE_NAME, and carries
    the five attributes of lines 175 to 181: the [Id] is
    [userEmail#assignmentId#timestamp] and its timestamp is the one in the
    path of the blob, which this invocation has uploaded before. *)
Theorem record_matches_the_upload (w : World) (event : pyval)
    (table : pyval) (item : list (string * pyval)) :
  (table, item) ∈ attempted as_put (lambda_handler w event).1 →
  ∃ m b data,
    read_message w event = Ok m
    ∧ status m = PStr "SUCCESS"
    ∧ table = environ_get w "DYNAMO_TABLE_NAME"
    ∧ item = submission_record m (strftime (now w))
    ∧ completed as_upload (lambda_handler w event).1
      = [(b, derived_path m (strftime (now w)), data)].
Proof.
  destruct (read_message w event) as [m | e] eqn:Hm.
  - rewrite (handler_trace w event m Hm).
    destruct (requests_get w 0 (submission_url m)); simpl;
      [| intros Hin; by apply elem_of_nil in Hin].
    destruct (open_storage w).2 as [l |] eqn:Hl; simpl;
      [| intros Hin; by apply elem_of_nil in Hin].
    intros Hin. apply dispatch_put_inv in Hin as (Hst & -> & -> & data & Hup).
    exists m, (bucket l), data. eauto 10.
  - rewrite (handler_unread w event e Hm). simpl.
    intros Hin. by apply elem_of_nil in Hin.
Qed.

Lemma record_matches_the_upload_witness :
  ∃ m b data,
    read_message Demo.nominal (Demo.event_of (Demo.submission "SUCCESS")) = Ok m
    ∧ status m = PStr "SUCCESS"
    ∧ PStr "Submissions" = environ_get Demo.nominal "DYNAMO_TABLE_NAME"
    ∧ [("Id", PStr "ada@example.edu#a1#20231201090530");
       ("AssignmentId", PStr "a1");
       ("SubmissionUrl", Demo.url);
       ("FilePath", PStr "ada@example.edu/a1/submission_2_20231201090530.zip");
       ("Timestamp", PStr "20231201090530")]
      = submission_record m (strftime (now Demo.nominal))
    ∧ completed as_upload
        (lambda_handler Demo.nominal (Demo.event_of (Demo.submission "SUCCESS"))).1
      = [(b, derived_path m (strftime (now Demo.nominal)), data)].
Proof.
  apply (record_matches_the_upload Demo.nominal
           (Demo.event_of (Demo.submission "SUCCESS"))).
  vm_compute. apply list_elem_of_here.
Defined.

(** ** What the invoker observes *)

Lemma dispatch_return_inv (w : World) (m : Message) (l : Locals) :
  (dispatch w m l).2 = Ok () →
  Forall (λ c, in_session c = true) (failed (dispatch w m l).1).
Proof.
  unfold failed, dispatch, update_dynamodb, call_send_email, send_email. run.
  unfold returned.
  repeat branch; intros Hok; try discriminate; repeat constructor.
Qed.

(** X6: the handler returns normally only if its message was read, the
    dispatch returned normally, and every call it made returned, except
    possibly the login or the sending of the SMTP session: no other failure
    is hidden from the invoker. *)
Theorem normal_return_hides_only_session_errors (w : World) (event : pyval) :
  (lambda_handler w event).2 = Ok () →
  (∃ m l, read_message w event = Ok m ∧ (open_storage w).2 = Ok l
          ∧ (dispatch w m l).2 = Ok ())
  ∧ Forall (λ c, in_session c = true) (failed (lambda_handler w event).1).
Proof.
  destruct (read_message w event) as [m | e] eqn:Hm.
  - rewrite (handler_outcome w event m Hm), (handler_trace w event m Hm).
    destruct (requests_get w 0 (submission_url m)); simpl; [| done].
    destruct (open_storage w).2 as [l |] eqn:Hl; simpl; [| done].
    destruct (dispatch w m l).2 as [[] |] eqn:Hd; [| done].
    intros _. split; [eauto |].
    by apply dispatch_return_inv.
  - by rewrite (handler_unread w event e Hm).
Qed.

Lemma normal_return_hides_only_session_errors_witness :
  (∃ m l,
     read_message Demo.login_refused (Demo.event_of (Demo.submission "NO_CONTENT")) = Ok m
     ∧ (open_storage Demo.login_refused).2 = Ok l
     ∧ (dispatch Demo.login_refused m l).2 = Ok ())
  ∧ Forall (λ c, in_session c = true)
      (failed (lambda_handler Demo.login_refused
                 (Demo.event_of (Demo.submission "NO_CONTENT"))).1).
Proof.
  apply (normal_return_hides_only_session_errors Demo.login_refused
           (Demo.event_of (Demo.submission "NO_CONTENT"))).
  reflexivity.
Defined.

Lemma dispatch_order (w : World) (m : Message) (l : Locals) :
  ops (dispatch w m l).1 `sublist_of` tail program_order.
Proof.
  unfold ops, program_order, dispatch, update_dynamodb, call_send_email, send_email. run.
  unfold returned.
  repeat branch; sublist_greedy.
Qed.

(** X7: in every environment the calls of an invocation follow one order:
    the fetch of line 39, the fetch of line 68, the upload, the SMTP
    connection, login, sending and quit, and the put last; each at most
    once.  In particular the email is sent before the record is written and
    nothing is called after the put. *)
Theorem calls_follow_program_order (w : World) (event : pyval) :
  ops (lambda_handler w event).1 `sublist_of` program_order.
Proof.
  destruct (read_message w event) as [m | e] eqn:Hm.
  - rewrite (handler_trace w event m Hm). unfold ops. simpl.
    apply sublist_skip.
    destruct (requests_get w 0 (submission_url m)); [| apply sublist_nil_l].
    destruct (open_storage w).2 as [l |]; [| apply sublist_nil_l].
    apply dispatch_order.
  - rewrite (handler_unread w event e Hm). apply sublist_nil_l.
Qed.

Lemma dispatch_fetches (w : World) (m : Message) (l : Locals) :
  attempted as_fetch (dispatch w m l).1
  = if eq_str (status m) "SUCCESS" then [submission_url m] else [].
Proof.
  unfold dispatch, update_dynamodb, call_send_email, send_email. run. unfold returned.
  repeat branch; reflexivity.
Qed.

(** X8: an invocation that has read its message fetches the submission URL
    and nothing else: once for every status, and a second time exactly when
    the dispatch is reached with status SUCCESS. *)
Theorem url_is_fetched_once_or_twice (w : World) (event : pyval) (m : Message) :
  read_message w event = Ok m →
  attempted as_fetch (lambda_handler w event).1
  = submission_url m
    :: match requests_get w 0 (submission_url m), (open_storage w).2 with
       | Ok _, Ok _ => if eq_str (status m) "SUCCESS" then [submission_url m] else []
       | _, _ => []
       end.
Proof.
  intros Hm. rewrite (handler_trace w event m Hm). simpl. f_equal.
  destruct (requests_get w 0 (submission_url m)); [| done].
  destruct (open_storage w).2 as [l |]; [| done].
  apply dispatch_fetches.
Qed.

Lemma url_is_fetched_once_or_twice_witness :
  attempted as_fetch
    (lambda_handler Demo.nominal (Demo.event_of (Demo.submission "SUCCESS"))).1
  = [Demo.url; Demo.url].
Proof.
  apply (url_is_fetched_once_or_twice Demo.nominal
           (Demo.event_of (Demo.submission "SUCCESS")) (Demo.message "SUCCESS")).
  reflexivity.
Defined.

(** ** The SMTP session *)

#[local] Set Warnings "-clear-no-such-hyp".

(** X9: the session of [send_email] in every environment.  It starts with
    the connection; when the connection fails nothing else is called; the
    message is sent only after a login that succeeded; a normal return
    comes right after a [quit] that succeeded; and when the connection was
    opened and [quit] is not called, an exception that is no
    [SMTPException] is leaving the function. *)
Theorem smtp_session_protocol (w : World)
    (a1 a2 a3 a4 a5 a6 a7 a8 a9 a10 a11 : pyval) :
  let session := send_email w a1 a2 a3 a4 a5 a6 a7 a8 a9 a10 a11 in
  let connect := SmtpConnect "smtp.mailgun.org" 587 in
  head (ops session.1) = Some OpConnect
  ∧ ((connect, false) ∈ session.1 → session.1 = [(connect, false)] ∧ session.2 ≠ Ok ())
  ∧ (OpSendmail ∈ ops session.1 → (SmtpLogin a1 a2, true) ∈ session.1)
  ∧ (session.2 = Ok () → last session.1 = Some (SmtpQuit, true))
  ∧ ((connect, true) ∈ session.1 → OpQuit ∉ ops session.1 →
     ∃ e, session.2 = Raised e ∧ isinstance e SMTPException = false).
Proof.
  unfold send_email, ops. run. unfold returned.
  repeat branch; (split; [reflexivity |]);
    (split; [intros ?; set_unfold; naive_solver |]);
    (split; [intros ?; set_unfold; naive_solver |]);
    (split; [intros ?; first [discriminate | reflexivity] |]);
    intros ? ?; set_unfold; naive_solver.
Qed.

(** ** Settings of the environment *)

(** X10: when GOOGLE_CREDENTIALS or GCP_BUCKET_NAME is not set, an
    invocation that has read its message raises after the fetch of line 39
    and before the dispatch: that fetch is its only call.  When the fetch
    returned and GOOGLE_CREDENTIALS is the missing one, the exception is the
    [KeyError] of the lookup. *)
Theorem missing_storage_setting_raises (w : World) (event : pyval) (m : Message) :
  read_message w event = Ok m →
  environ w !! "GOOGLE_CREDENTIALS" = None ∨ environ w !! "GCP_BUCKET_NAME" = None →
  ∃ e,
    lambda_handler w event
    = ([(HttpGet (submission_url m), returned (requests_get w 0 (submission_url m)))],
       Raised e)
    ∧ (returned (requests_get w 0 (submission_url m)) = true →
       environ w !! "GOOGLE_CREDENTIALS" = None →
       e = Exn KeyError "'GOOGLE_CREDENTIALS'").
Proof.
  intros Hm Hmiss.
  assert (∃ e, (open_storage w).2 = Raised e
               ∧ (environ w !! "GOOGLE_CREDENTIALS" = None →
                  e = Exn KeyError "'GOOGLE_CREDENTIALS'")) as (e & He & Hcls).
  { destruct (open_storage w).2 as [l | e] eqn:Hl.
    - apply open_storage_locals in Hl as (Hb & [blob Hc] & _).
      destruct Hmiss; congruence.
    - exists e. split; [done |]. intros Hnone. revert Hl.
      unfold open_storage, environ_item. rewrite Hnone. by intros [= <-]. }
  pose proof (open_storage_silent w) as Hsil.
  unfold lambda_handler. rewrite Hm. run.
  destruct (requests_get w 0 (submission_url m)) as [r0 | e0]; simpl.
  - destruct (open_storage w) as [t0 r]. simpl in *. subst. eauto.
  - exists e0. split; [done |]. discriminate.
Qed.

Lemma missing_storage_setting_raises_witness :
  ∃ e,
    lambda_handler unconfigured (Demo.event_of (Demo.submission "SUCCESS"))
    = ([(HttpGet (submission_url (Demo.message "SUCCESS")),
         returned (requests_get unconfigured 0 (submission_url (Demo.message "SUCCESS"))))],
       Raised e)
    ∧ (returned (requests_get unconfigured 0 (submission_url (Demo.message "SUCCESS")))
       = true →
       environ unconfigured !! "GOOGLE_CREDENTIALS" = None →
       e = Exn KeyError "'GOOGLE_CREDENTIALS'").
Proof.
  apply (missing_storage_setting_raises unconfigured
           (Demo.event_of (Demo.submission "SUCCESS")) (Demo.message "SUCCESS")).
  - reflexivity.
  - left. reflexivity.
Defined.




Example storage_only_run :
  lambda_handler storage_only (Demo.event_of (Demo.submission "NO_CONTENT"))
  = ((HttpGet Demo.url, true)
       :: smtp_session
            {| bucket := "submissions"; source_email := PNone;
               mailgun_user_name := PNone; mailgun_key := PNone |}
            (notice (Demo.message "NO_CONTENT")
               {| bucket := "submissions"; source_email := PNone;
                  mailgun_user_name := PNone; mailgun_key := PNone |}
               "Submission Failed - Empty File"
               "Your Submission could not be accepted as the file does not have any content")
            (Demo.render
               (notice (Demo.message "NO_CONTENT")
                  {| bucket := "submissions"; source_email := PNone;
                     mailgun_user_name := PNone; mailgun_key := PNone |}
                  "Submission Failed - Empty File"
                  "Your Submission could not be accepted as the file does not have any content")),
     Ok ()).
Proof. reflexivity. Qed.

(** ** Timestamps *)

Lemma append_cons (c : ascii) (a b : string) : String c a ++ b = String c (a ++ b).
Proof. reflexivity. Qed.

Lemma append_inj_length (a a' b b' : string) :
  String.length a = String.length a' → a ++ b = a' ++ b' → a = a' ∧ b = b'.
Proof.
  revert a'. induction a as [| c a IH]; intros [| c' a']; simpl; try discriminate.
  - done.
  - intros [= Hlen]. rewrite !append_cons. intros [= -> Heq].
    destruct (IH a' Hlen Heq) as [-> ->]. done.
Qed.

Lemma length_append (a b : string) :
  String.length (a ++ b) = (String.length a + String.length b)%nat.
Proof. induction a as [| c a IH]; [done |]. rewrite append_cons. simpl. by rewrite IH. Qed.

Lemma pad2_checked :
  forallb (λ n, (String.length (pad 2 n) =? 2)%nat && (digits_value 0 (pad 2 n) =? n)%N)
          (map N.of_nat (seq 0 100)) = true.
Proof. vm_compute. reflexivity. Qed.

Lemma pad4_checked :
  forallb (λ n, (String.length (pad 4 n) =? 4)%nat && (digits_value 0 (pad 4 n) =? n)%N)
          (map N.of_nat (seq (N.to_nat 1000) (N.to_nat 9000))) = true.
Proof. vm_compute. reflexivity. Qed.

Lemma pad2_spec (n : N) :
  (n < 100)%N → String.length (pad 2 n) = 2%nat ∧ digits_value 0 (pad 2 n) = n.
Proof.
  intros Hn. pose proof pad2_checked as H. rewrite forallb_forall in H.
  specialize (H n). rewrite andb_true_iff, Nat.eqb_eq, N.eqb_eq in H. apply H.
  apply in_map_iff. exists (N.to_nat n). split; [lia |]. apply in_seq. lia.
Qed.

Lemma pad4_spec (n : N) :
  (1000 ≤ n < 10000)%N → String.length (pad 4 n) = 4%nat ∧ digits_value 0 (pad 4 n) = n.
Proof.
  intros Hn. pose proof pad4_checked as H. rewrite forallb_forall in H.
  specialize (H n). rewrite andb_true_iff, Nat.eqb_eq, N.eqb_eq in H. apply H.
  apply in_map_iff. exists (N.to_nat n). split; [lia |]. apply in_seq. lia.
Qed.

Lemma strftime_length (d : datetime) :
  valid_clock d → String.length (strftime d) = 14%nat.
Proof.
  intros (Hy & Hmo & Hd & Hh & Hmi & Hs). unfold strftime.
  rewrite !length_append.
  destruct (pad4_spec _ Hy) as [-> _]. destruct (pad2_spec _ Hmo) as [-> _].
  destruct (pad2_spec _ Hd) as [-> _]. destruct (pad2_spec _ Hh) as [-> _].
  destruct (pad2_spec _ Hmi) as [-> _]. destruct (pad2_spec _ Hs) as [-> _].
  reflexivity.
Qed.

(** Two readings of the clock with the same timestamp are the same. *)
Lemma strftime_inj (d1 d2 : datetime) :
  valid_clock d1 → valid_clock d2 → strftime d1 = strftime d2 → d1 = d2.
Proof.
  intros (Hy1 & Hmo1 & Hd1 & Hh1 & Hmi1 & Hs1) (Hy2 & Hmo2 & Hd2 & Hh2 & Hmi2 & Hs2).
  unfold strftime. intros H.
  destruct (pad4_spec _ Hy1) as [Ly1 Vy1]. destruct (pad4_spec _ Hy2) as [Ly2 Vy2].
  destruct (pad2_spec _ Hmo1) as [Lmo1 Vmo1]. destruct (pad2_spec _ Hmo2) as [Lmo2 Vmo2].
  destruct (pad2_spec _ Hd1) as [Ld1 Vd1]. destruct (pad2_spec _ Hd2) as [Ld2 Vd2].
  destruct (pad2_spec _ Hh1) as [Lh1 Vh1]. destruct (pad2_spec _ Hh2) as [Lh2 Vh2].
  destruct (pad2_spec _ Hmi1) as [Lmi1 Vmi1]. destruct (pad2_spec _ Hmi2) as [Lmi2 Vmi2].
  destruct (pad2_spec _ Hs1) as [Ls1 Vs1]. destruct (pad2_spec _ Hs2) as [Ls2 Vs2].
  apply append_inj_length in H as [Ey H]; [| congruence].
  apply append_inj_length in H as [Emo H]; [| congruence].
  apply append_inj_length in H as [Ed H]; [| congruence].
  apply append_inj_length in H as [Eh H]; [| congruence].
  apply append_inj_length in H as [Emi Es]; [| congruence].
  destruct d1, d2; simpl in *. f_equal; congruence.
Qed.

(** The timestamp can be read back from the derived path and from the [Id]
    of the record. *)
Lemma derived_path_inj (m : Message) (t1 t2 : string) :
  String.length t1 = String.length t2 →
  derived_path m t1 = derived_path m t2 → t1 = t2.
Proof.
  intros Hlen. unfold derived_path. intros H.
  repeat apply (inj (String.append _)) in H.
  by apply append_inj_length in H as [? _].
Qed.

Lemma record_id_inj (m : Message) (t1 t2 : string) :
  submission_record m t1 = submission_record m t2 → t1 = t2.
Proof. unfold submission_record. intros H. by inversion H. Qed.

(** X12: the handler is not idempotent, and the second is all that tells two
    deliveries apart.  For the same message and clocks with four-digit
    years, an upload of one invocation and an upload of the other go to the
    same path exactly when the two readings agree in year, month, day,
    hour, minute and second, and likewise for the items of their puts: a
    redelivery in a later second creates a second object and record, one
    within the same second writes the same path and the same [Id] again. *)
Theorem redelivery_collides_iff_same_second (w1 w2 : World) (event : pyval) (m : Message) :
  read_message w1 event = Ok m →
  read_message w2 event = Ok m →
  valid_clock (now w1) →
  valid_clock (now w2) →
  (∀ b1 p1 d1 b2 p2 d2,
     (b1, p1, d1) ∈ attempted as_upload (lambda_handler w1 event).1 →
     (b2, p2, d2) ∈ attempted as_upload (lambda_handler w2 event).1 →
     p1 = p2 ↔ now w1 = now w2)
  ∧ (∀ n1 i1 n2 i2,
       (n1, i1) ∈ attempted as_put (lambda_handler w1 event).1 →
       (n2, i2) ∈ attempted as_put (lambda_handler w2 event).1 →
       (i1 = i2 ↔ now w1 = now w2)
       ∧ (assoc "Id" i1 = assoc "Id" i2 ↔ now w1 = now w2)
       ∧ (assoc "Timestamp" i1 = assoc "Timestamp" i2 ↔ now w1 = now w2)).
Proof.
  intros Hm1 Hm2 Hv1 Hv2.
  assert (strftime (now w1) = strftime (now w2) → now w1 = now w2) as Hts.
  { by apply strftime_inj. }
  assert (∀ w b p d,
            read_message w event = Ok m →
            (b, p, d) ∈ attempted as_upload (lambda_handler w event).1 →
            p = derived_path m (strftime (now w))) as Hup.
  { intros w b p d Hm. rewrite (handler_trace w event m Hm).
    destruct (requests_get w 0 (submission_url m)); simpl;
      [| intros Hin; by apply elem_of_nil in Hin].
    destruct (open_storage w).2 as [l |]; simpl;
      [| intros Hin; by apply elem_of_nil in Hin].
    intros Hin. by apply dispatch_upload_inv in Hin as (_ & _ & -> & _). }
  assert (∀ w n i,
            read_message w event = Ok m →
            (n, i) ∈ attempted as_put (lambda_handler w event).1 →
            i = submission_record m (strftime (now w))) as Hput.
  { intros w n i Hm. rewrite (handler_trace w event m Hm).
    destruct (requests_get w 0 (submission_url m)); simpl;
      [| intros Hin; by apply elem_of_nil in Hin].
    destruct (open_storage w).2 as [l |]; simpl;
      [| intros Hin; by apply elem_of_nil in Hin].
    intros Hin. by apply dispatch_put_inv in Hin as (_ & _ & -> & _). }
  split.
  - intros b1 p1 d1 b2 p2 d2 H1 H2.
    rewrite (Hup w1 _ _ _ Hm1 H1), (Hup w2 _ _ _ Hm2 H2). split.
    + intros Heq. apply Hts, (derived_path_inj m); [| done].
      by rewrite !strftime_length.
    + by intros ->.
  - intros n1 i1 n2 i2 H1 H2.
    rewrite (Hput w1 _ _ Hm1 H1), (Hput w2 _ _ Hm2 H2).
    split; [| split]; (split; [| by intros ->]).
    + intros Heq. by apply Hts, (record_id_inj m).
    + simpl. intros [= Heq]. apply Hts.
      by repeat apply (inj (String.append _)) in Heq.
    + simpl. intros [= Heq]. by apply Hts.
Qed.

Lemma redelivery_collides_iff_same_second_witness :
  let later :=
    at_time {| year := 2023; month := 12; day := 1; hour := 9; minute := 5; second := 31 |}
            Demo.nominal in
  (∀ b1 p1 d1 b2 p2 d2,
     (b1, p1, d1)
     ∈ attempted as_upload
         (lambda_handler Demo.nominal (Demo.event_of (Demo.submission "SUCCESS"))).1 →
     (b2, p2, d2)
     ∈ attempted as_upload
         (lambda_handler later (Demo.event_of (Demo.submission "SUCCESS"))).1 →
     p1 = p2 ↔ now Demo.nominal = now later)
  ∧ (∀ n1 i1 n2 i2,
       (n1, i1)
       ∈ attempted as_put
           (lambda_handler Demo.nominal (Demo.event_of (Demo.submission "SUCCESS"))).1 →
       (n2, i2)
       ∈ attempted as_put
           (lambda_handler later (Demo.event_of (Demo.submission "SUCCESS"))).1 →
       (i1 = i2 ↔ now Demo.nominal = now later)
       ∧ (assoc "Id" i1 = assoc "Id" i2 ↔ now Demo.nominal = now later)
       ∧ (assoc "Timestamp" i1 = assoc "Timestamp" i2 ↔ now Demo.nominal = now later)).
Proof.
  apply (redelivery_collides_iff_same_second Demo.nominal
           (at_time {| year := 2023; month := 12; day := 1;
                       hour := 9; minute := 5; second := 31 |} Demo.nominal)
           (Demo.event_of (Demo.submission "SUCCESS")) (Demo.message "SUCCESS")).
  - reflexivity.
  - reflexivity.
  - unfold valid_clock. simpl. lia.
  - unfold valid_clock. simpl. lia.
Defined.

Example redelivery_paths :
  attempted as_upload
    (lambda_handler
       (at_time {| year := 2023; month := 12; day := 1; hour := 9; minute := 5; second := 31 |}
                Demo.nominal)
       (Demo.event_of (Demo.submission "SUCCESS"))).1
  = [("submissions", "ada@example.edu/a1/submission_2_20231201090531.zip", Demo.zip)].
Proof. reflexivity. Qed.

(** ** Status values and the error path *)

(** X13: the status is matched exactly.  The dispatch ends in the
    [ValueError] of line 123 without having made any call if and only if
    the status is none of the five strings; a status in another case, or
    one that is not a string, is such a value. *)
Theorem fall_through_iff_unrecognized (w : World) (m : Message) (l : Locals) :
  dispatch w m l = ([], Raised (Exn ValueError "Non-success status received"))
  ↔ unrecognized (status m).
Proof.
  split; [| apply unrecognized_falls_through].
  intros Hd s Hs Hst. revert Hd.
  unfold recognized, notify_only in Hs.
  unfold dispatch, update_dynamodb, call_send_email, send_email. rewrite Hst.
  repeat (apply elem_of_cons in Hs as [-> | Hs]); [.. | by apply elem_of_nil in Hs];
    simpl; run; unfold returned; repeat branch; intros H; discriminate H.
Qed.

Example lower_case_status_is_unrecognized :
  unrecognized (PStr "success") ∧ unrecognized (PInt 1) ∧ unrecognized PNone.
Proof.
  repeat split; intros s Hs; unfold recognized, notify_only in Hs;
    repeat (apply elem_of_cons in Hs as [-> | Hs]); try discriminate;
    by apply elem_of_nil in Hs.
Qed.

(** X14: what the [except] clause does, in every environment.  When the
    dispatch raises, the clause makes no call at all; an exception that
    derives from [Exception] is replaced by the [TypeError] of the call of
    [send_email] with eight arguments, so the invoker never sees the
    original error; an exception that does not derive from [Exception]
    leaves the handler unchanged. *)
Theorem except_clause_replaces_the_error (w : World) (event : pyval) (m : Message)
    (l : Locals) (t : trace) (e : exn) :
  reaches_dispatch w event m l →
  dispatch w m l = (t, Raised e) →
  (lambda_handler w event).1 = (HttpGet (submission_url m), true) :: t
  ∧ (isinstance e Exception = true →
     (lambda_handler w event).2 = Raised (arity_error 8)
     ∧ exn_class (arity_error 8) = TypeError)
  ∧ (isinstance e Exception = false → (lambda_handler w event).2 = Raised e).
Proof.
  intros (Hm & Hget & Hl) Hd.
  rewrite (handler_trace w event m Hm), (handler_outcome w event m Hm).
  destruct (requests_get w 0 (submission_url m)); [| done].
  rewrite Hl. simpl. rewrite Hd. simpl.
  split; [done |]. split; intros ->; done.
Qed.

Lemma except_clause_replaces_the_error_witness :
  (lambda_handler Demo.table_down (Demo.event_of (Demo.submission "SUCCESS"))).1
  = (HttpGet (submission_url (Demo.message "SUCCESS")), true)
      :: (dispatch Demo.table_down (Demo.message "SUCCESS") Demo.locals).1
  ∧ (isinstance (Exn (LibraryError "botocore.exceptions.ClientError")
                     "ResourceNotFoundException") Exception = true →
     (lambda_handler Demo.table_down (Demo.event_of (Demo.submission "SUCCESS"))).2
     = Raised (arity_error 8)
     ∧ exn_class (arity_error 8) = TypeError)
  ∧ (isinstance (Exn (LibraryError "botocore.exceptions.ClientError")
                     "ResourceNotFoundException") Exception = false →
     (lambda_handler Demo.table_down (Demo.event_of (Demo.submission "SUCCESS"))).2
     = Raised (Exn (LibraryError "botocore.exceptions.ClientError")
                   "ResourceNotFoundException")).
Proof.
  apply (except_clause_replaces_the_error Demo.table_down
           (Demo.event_of (Demo.submission "SUCCESS")) (Demo.message "SUCCESS")
           Demo.locals).
  - repeat split; reflexivity.
  - reflexivity.
Defined.

(** ** The record store *)

(** X15: [update_dynamodb] in every environment.  It makes at most one call,
    the put of an item of five attributes whose [Id] joins the user, the
    assignment and the timestamp with [#]; it makes none exactly when
    [boto3.resource] or [Table] raises; and it returns normally exactly when
    the put returned. *)
Theorem update_dynamodb_protocol (w : World)
    (user_email assignment_id submission_url full_path timestamp : pyval) :
  let put :=
    PutItem (environ_get w "DYNAMO_TABLE_NAME")
      [("Id", PStr (py_str user_email ++ "#" ++ py_str assignment_id ++ "#"
                    ++ py_str timestamp));
       ("AssignmentId", assignment_id);
       ("SubmissionUrl", submission_url);
       ("FilePath", full_path);
       ("Timestamp", timestamp)] in
  let result := update_dynamodb w user_email assignment_id submission_url full_path timestamp in
  (result.1 = [] ∨ result.1 = [(put, true)] ∨ result.1 = [(put, false)])
  ∧ (result.1 = []
     ↔ returned (boto3_resource w "dynamodb") = false
       ∨ returned (dynamodb_Table w (environ_get w "DYNAMO_TABLE_NAME")) = false)
  ∧ (result.2 = Ok () ↔ result.1 = [(put, true)]).
Proof.
  unfold update_dynamodb. run. unfold returned.
  destruct (boto3_resource w "dynamodb") as [[] |]; simpl;
    [| split; [eauto | split; split; eauto; discriminate]].
  destruct (dynamodb_Table w (environ_get w "DYNAMO_TABLE_NAME")) as [[] |]; simpl;
    [| split; [eauto | split; split; eauto; discriminate]].
  destruct (put_item w _ _) as [[] |]; simpl;
    (split; [eauto | split; split; try done; try (intros [|]; discriminate)]).
Qed.
